(** * Event catalog: owner management view and public browse view

    A shallow embedding of [src/pages/Home.jsx] (public browse, favorites)
    and [src/pages/EventManagement.jsx] (owner-scoped list, search, form).

    Conventions.
    - A signal of the component is a field of the component's state record;
      [setX v] is a record update.
    - An [async] function is split at its [await]: the part that runs before
      the remote call ([_begin], it yields the request), and the part that
      runs once the call has settled ([_end], it receives the outcome and
      reads the signals again, as the source does after the [await]).
    - The remote collection ["events"] is a finite map from document ids to
      document data; a remote call may also fail (connectivity, rules), which
      is an input of the model.
    - Strings are byte strings; [toLowerCase] and [trim] are the ASCII
      fragments of the JS operations. *)

From stdpp Require Import base list gmap strings sets.
From Stdlib Require Import ZArith Lia Ascii String Sorted.

Local Open Scope Z_scope.

(** ** JS string operations *)

Module JsString.

(** White space removed by [String.prototype.trim], ASCII part:
    TAB, LF, VT, FF, CR and SPACE. *)
Definition is_space (c : ascii) : bool :=
  let n := nat_of_ascii c in
  ((9 <=? n)%nat && (n <=? 13)%nat) || (n =? 32)%nat.

Fixpoint trimStart (s : string) : string :=
  match s with
  | EmptyString => EmptyString
  | String c s' => if is_space c then trimStart s' else s
  end.

(** [trimEnd] drops a character when it is white space and everything
    after it has been dropped. *)
Fixpoint trimEnd (s : string) : string :=
  match s with
  | EmptyString => EmptyString
  | String c s' =>
      match trimEnd s' with
      | EmptyString => if is_space c then EmptyString else String c EmptyString
      | t => String c t
      end
  end.

Definition trim (s : string) : string := trimEnd (trimStart s).

Definition lower_char (c : ascii) : ascii :=
  let n := nat_of_ascii c in
  if ((65 <=? n)%nat && (n <=? 90)%nat)%bool then ascii_of_nat (n + 32) else c.

Fixpoint toLowerCase (s : string) : string :=
  match s with
  | EmptyString => EmptyString
  | String c s' => String (lower_char c) (toLowerCase s')
  end.

Fixpoint startsWith (s t : string) : bool :=
  match t, s with
  | EmptyString, _ => true
  | String _ _, EmptyString => false
  | String b t', String a s' => if Ascii.eqb a b then startsWith s' t' else false
  end.

(** [s.includes(t)]: [t] occurs in [s] at some position. *)
Fixpoint includes (s t : string) : bool :=
  startsWith s t ||
  match s with
  | EmptyString => false
  | String _ s' => includes s' t
  end.

(** JS truthiness of a string: only the empty string is falsy. *)
Definition truthy (s : string) : bool :=
  match s with EmptyString => false | _ => true end.

End JsString.

(** ** Outcomes of fallible steps

    A remote call that rejects, or a JS exception, is [Err] with its message. *)

Inductive Result (A : Type) : Type :=
| Ok (a : A)
| Err (msg : string).
Arguments Ok {A} a.
Arguments Err {A} msg.

(** ** JS [Date] and the store's [Timestamp] *)

Module JsDate.

(** A [Date] holds a time value in milliseconds since the epoch, or NaN
    ("Invalid Date"). *)
Inductive t : Type :=
| Valid (ms : Z)
| Invalid.

Definition max_time : Z := 8640000000000000.

Definition timeClip (ms : Z) : t :=
  if Z.abs ms <=? max_time then Valid ms else Invalid.

Definition ms_per_day : Z := 86400000.

(** Year, month (1-12) and day of month of a day number counted from
    1970-01-01, in the proleptic Gregorian calendar. *)
Definition civil_from_days (days : Z) : Z * Z * Z :=
  let z := days + 719468 in
  let era := z / 146097 in
  let doe := z - era * 146097 in
  let yoe := (doe - doe / 1460 + doe / 36524 - doe / 146096) / 365 in
  let doy := doe - (365 * yoe + yoe / 4 - yoe / 100) in
  let mp := (5 * doy + 2) / 153 in
  let d := doy - (153 * mp + 2) / 5 + 1 in
  let m := if mp <? 10 then mp + 3 else mp - 9 in
  let y := yoe + era * 400 + (if m <=? 2 then 1 else 0) in
  (y, m, d).

Definition digit (n : Z) : ascii := ascii_of_nat (48 + Z.to_nat (n mod 10)).

(** Decimal digits of [n >= 0], zero-padded (and cut) to width [w]. *)
Fixpoint pad (w : nat) (n : Z) : string :=
  match w with
  | O => EmptyString
  | S w' => String.append (pad w' (n / 10)) (String (digit n) EmptyString)
  end.

Definition year_string (y : Z) : string :=
  if (0 <=? y) && (y <=? 9999) then pad 4 y
  else if y <? 0 then String.append "-" (pad 6 (- y))
  else String.append "+" (pad 6 y).

(** [toISOString]: [YYYY-MM-DDTHH:mm:ss.sssZ], a [RangeError] on an
    invalid date. *)
Definition toISOString (d : t) : Result string :=
  match d with
  | Invalid => Err "RangeError: Invalid time value"
  | Valid ms =>
      let '(y, m, dd) := civil_from_days (ms / ms_per_day) in
      let r := ms mod ms_per_day in
      Ok (String.concat ""
            [year_string y; "-"; pad 2 m; "-"; pad 2 dd; "T";
             pad 2 (r / 3600000); ":"; pad 2 (r / 60000 mod 60); ":";
             pad 2 (r / 1000 mod 60); "."; pad 3 (r mod 1000); "Z"])
  end.

(** [getTime()]: [None] is NaN. *)
Definition getTime (d : t) : option Z :=
  match d with Valid ms => Some ms | Invalid => None end.

(** [getTimezoneOffset()] in minutes, NaN on an invalid date; [tz] gives the
    offset of the session's time zone at an instant. *)
Definition getTimezoneOffset (tz : Z -> Z) (d : t) : option Z :=
  match d with Valid ms => Some (tz ms) | Invalid => None end.

(** [new Date(n)] for a number [n]. *)
Definition of_number (n : option Z) : t :=
  match n with Some ms => timeClip ms | None => Invalid end.

(** [s.slice(0, n)] *)
Definition slice0 (n : nat) (s : string) : string := String.substring 0 n s.

End JsDate.

(** The store's timestamp wrapper: seconds and nanoseconds since the epoch.
    [toDate] is the SDK's conversion call, [new Date(toMillis())]; the [Date]
    constructor drops the fraction of a millisecond towards zero. *)
Module Timestamp.

Record t : Type := mk { seconds : Z; nanoseconds : Z }.

Definition toDate (ts : t) : JsDate.t :=
  JsDate.timeClip (Z.quot (seconds ts * 1000000000 + nanoseconds ts) 1000000).

(** How the SDK stores a [Date] that is written to a document. *)
Definition fromMillis (ms : Z) : t :=
  {| seconds := ms / 1000; nanoseconds := (ms mod 1000) * 1000000 |}.

End Timestamp.

(** The two shapes in which an event's [datetime] (a JS value) reaches the
    component: a [Date] (entries written by the form in this session) and a
    [Timestamp] (documents read from the store). *)
Inductive DateTimeVal : Type :=
| DTDate (d : JsDate.t)
| DTTimestamp (ts : Timestamp.t).

(** ** Events *)

Module Event.

(** The data of an event document, [doc.data()]. A field a document may lack
  is an [option]; [created] is the instant of creation in milliseconds. *)
Record Data : Type := mkData {
name : option string;
description : string;
datetime : option DateTimeVal;
isPrivate : bool;
category : string;
userId : string;
created : Z;
favorites : option (list string)
}.

(** An entry of a component's [events] signal: [{ id: doc.id, ...doc.data() }]. *)
Record t : Type := mk {
id : string;
data : Data
}.

(** [eventData] of [handleSubmit]: the fields the form writes. *)
Record Payload : Type := mkPayload {
p_name : string;
p_description : string;
p_datetime : JsDate.t;
p_isPrivate : bool;
p_category : string;
p_userId : string;
p_created : Z
}.

(** [{ ...d, ...eventData }]: the fields of the payload replace those of [d],
  [favorites] is kept. *)
Definition spread (d : Data) (p : Payload) : Data :=
{| name := Some (p_name p);
   description := p_description p;
   datetime := Some (DTDate (p_datetime p));
   isPrivate := p_isPrivate p;
   category := p_category p;
   userId := p_userId p;
   created := p_created p;
   favorites := favorites d |}.

(** [{ ...eventData }] alone: an event that has no [favorites] field. *)
Definition of_payload (p : Payload) : Data :=
{| name := Some (p_name p);
   description := p_description p;
   datetime := Some (DTDate (p_datetime p));
   isPrivate := p_isPrivate p;
   category := p_category p;
   userId := p_userId p;
   created := p_created p;
   favorites := None |}.

Definition with_favorites (l : list string) (d : Data) : Data :=
{| name := name d;
   description := description d;
   datetime := datetime d;
   isPrivate := isPrivate d;
   category := category d;
   userId := userId d;
   created := created d;
   favorites := Some l |}.

(** [{ ...event, favorites: l }] *)
Definition set_favorites (l : list string) (e : t) : t :=
{| id := id e; data := with_favorites l (data e) |}.

(** [{ ...d, ...eventData }] as the store keeps it: a [Date] is stored as a
  [Timestamp]. *)
Definition stored (d : Data) (p : Payload) : Data :=
{| name := Some (p_name p);
   description := p_description p;
   datetime :=
     match p_datetime p with
     | JsDate.Valid ms => Some (DTTimestamp (Timestamp.fromMillis ms))
     | JsDate.Invalid => None
     end;
   isPrivate := p_isPrivate p;
   category := p_category p;
   userId := p_userId p;
   created := p_created p;
   favorites := favorites d |}.


(** [event.favorites || []] *)
Definition favorites_or_empty (e : t) : list string :=
match favorites (data e) with Some l => l | None => [] end.

(** [arr.includes(x)] on an array of strings. *)
Definition array_includes (l : list string) (x : string) : bool :=
existsb (String.eqb x) l.

(** [arr.filter((y) => y !== x)] *)
Definition array_without (l : list string) (x : string) : list string :=
List.filter (fun y => negb (String.eqb y x)) l.

End Event.

(** ** The document store *)

Module Firestore.

Inductive Value : Type :=
| VBool (b : bool)
| VString (s : string)
| VTime (ms : Z).

#[global] Instance Value_eq_dec : EqDecision Value.
Proof. solve_decision. Defined.

(** The scalar fields of an event document, by field path. *)
Definition get_field (f : string) (d : Event.Data) : option Value :=
  if String.eqb f "name" then VString <$> Event.name d
  else if String.eqb f "description" then Some (VString (Event.description d))
  else if String.eqb f "isPrivate" then Some (VBool (Event.isPrivate d))
  else if String.eqb f "category" then Some (VString (Event.category d))
  else if String.eqb f "userId" then Some (VString (Event.userId d))
  else if String.eqb f "created" then Some (VTime (Event.created d))
  else None.

(** Order of values: by type first (booleans, then times, then strings),
    then within the type. *)
Definition value_compare (a b : Value) : comparison :=
  match a, b with
  | VBool x, VBool y => Bool.compare x y
  | VBool _, _ => Lt
  | VTime _, VBool _ => Gt
  | VTime x, VTime y => Z.compare x y
  | VTime _, VString _ => Lt
  | VString x, VString y => String.compare x y
  | VString _, _ => Gt
  end.

Inductive Direction : Type := asc | desc.

Inductive Constraint : Type :=
| where_eq (field : string) (v : Value)
| orderBy (field : string) (dir : Direction).

(** A query on the collection ["events"]: equality filters (all of them
    must hold) and order clauses (the first one is the major key). *)
Record Query : Type := mkQuery {
  q_filters : list (string * Value);
  q_order : list (string * Direction)
}.

(** [collection(db, "events")] *)
Definition collection_events : Query := {| q_filters := []; q_order := [] |}.

Definition add_constraint (q : Query) (c : Constraint) : Query :=
  match c with
  | where_eq f v => {| q_filters := q_filters q ++ [(f, v)]; q_order := q_order q |}
  | orderBy f dir => {| q_filters := q_filters q; q_order := q_order q ++ [(f, dir)] |}
  end.

(** [query(q, c1, ..., cn)] *)
Definition query (q : Query) (cs : list Constraint) : Query :=
  fold_left add_constraint cs q.

Definition satisfies (q : Query) (d : Event.Data) : bool :=
  forallb (fun '(f, v) => bool_decide (get_field f d = Some v)) (q_filters q)
  && forallb (fun '(f, _) => bool_decide (is_Some (get_field f d))) (q_order q).

(** [doc_leb order a b]: [a] may come before [b] under the order clauses. *)
Fixpoint doc_leb (order : list (string * Direction)) (a b : Event.Data) : bool :=
  match order with
  | [] => true
  | (f, dir) :: rest =>
      match get_field f a, get_field f b with
      | Some va, Some vb =>
          match value_compare va vb, dir with
          | Eq, _ => doc_leb rest a b
          | Lt, asc | Gt, desc => true
          | Lt, desc | Gt, asc => false
          end
      | _, _ => true
      end
  end.

Fixpoint insert_sorted (leb : Event.t -> Event.t -> bool) (x : Event.t) (l : list Event.t)
  : list Event.t :=
  match l with
  | [] => [x]
  | y :: l' => if leb x y then x :: l else y :: insert_sorted leb x l'
  end.

Definition sort_docs (leb : Event.t -> Event.t -> bool) (l : list Event.t) : list Event.t :=
  foldr (insert_sorted leb) [] l.

(** The documents of the collection as snapshot entries, in the store's
    own order. *)
Definition docs_of (coll : gmap string Event.Data) : list Event.t :=
  (fun '(i, d) => Event.mk i d) <$> map_to_list coll.

(** What a query returns on a collection: the documents that satisfy all
    filters and carry every order field, in the order of the clauses. *)
Definition run_query (coll : gmap string Event.Data) (q : Query) : list Event.t :=
  sort_docs (fun a b => doc_leb (q_order q) (Event.data a) (Event.data b))
    (List.filter (fun e => satisfies q (Event.data e)) (docs_of coll)).

(** A write to a document. *)
Inductive Write : Type :=
| set_fields (p : Event.Payload)
| arrayUnion (field_value : string)
| arrayRemove (field_value : string).

(** Instants a [Timestamp] can hold: years 0001 to 9999. *)
Definition storable (d : JsDate.t) : bool :=
  match d with
  | JsDate.Valid ms => (-62135596800000 <=? ms) && (ms <? 253402300800000)
  | JsDate.Invalid => false
  end.

Definition stored_favorites (d : Event.Data) : list string :=
  match Event.favorites d with Some l => l | None => [] end.

Definition apply_write (w : Write) (d : Event.Data) : Event.Data :=
  match w with
  | set_fields p => Event.stored d p
  | arrayUnion u =>
      let l := stored_favorites d in
      Event.with_favorites (if Event.array_includes l u then l else l ++ [u]) d
  | arrayRemove u => Event.with_favorites (Event.array_without (stored_favorites d) u) d
  end.

(** The store as one call sees it: serving a collection, or failing
    (connectivity, security rules) with a message. *)
Inductive Backend : Type :=
| Serving (coll : gmap string Event.Data)
| Failing (msg : string).

(** [getDocs(q)] *)
Definition getDocs (b : Backend) (q : Query) : Result (list Event.t) :=
  match b with
  | Serving coll => Ok (run_query coll q)
  | Failing msg => Err msg
  end.

Definition writable (w : Write) : bool :=
  match w with
  | set_fields p => storable (Event.p_datetime p)
  | _ => true
  end.

(** [updateDoc(doc(db, "events", i), w)]: the document must exist. *)
Definition updateDoc (b : Backend) (i : string) (w : Write)
  : Result unit * Backend :=
  match b with
  | Serving coll =>
      match coll !! i with
      | Some d =>
          if writable w then (Ok tt, Serving (<[i := apply_write w d]> coll))
          else (Err "invalid data", b)
      | None => (Err "No document to update", b)
      end
  | Failing msg => (Err msg, b)
  end.

(** [addDoc(collection(db, "events"), p)]: the store picks the id of the new
    document; [fresh] is the id it would pick, the id of no document. *)
Definition addDoc (b : Backend) (fresh : string) (p : Event.Payload)
  : Result string * Backend :=
  match b with
  | Serving coll =>
      if negb (writable (set_fields p)) then (Err "invalid data", b)
      else if bool_decide (coll !! fresh = None)
      then (Ok fresh, Serving (<[fresh := Event.stored (Event.of_payload p) p]> coll))
      else (Err "document already exists", b)
  | Failing msg => (Err msg, b)
  end.

(** [deleteDoc(doc(db, "events", i))] *)
Definition deleteDoc (b : Backend) (i : string) : Result unit * Backend :=
  match b with
  | Serving coll => (Ok tt, Serving (delete i coll))
  | Failing msg => (Err msg, b)
  end.

End Firestore.

(** ** The session and the rendered page *)

Module Auth.

(** Modelled from the spec: [services/auth.js] is not among the sources.
    The session provider exposes [isAuthenticated(): bool] and
    [getCurrentUser(): {id}] (section 1); a session is the id of the signed-in
    user, if there is one. *)
Definition Session : Type := option string.

Definition isAuthenticated (s : Session) : bool :=
  match s with Some _ => true | None => false end.

(** [authService.getCurrentUser().uid]: a [TypeError] when nobody is signed in. *)
Definition currentUid (s : Session) : Result string :=
  match s with
  | Some uid => Ok uid
  | None => Err "TypeError: Cannot read properties of null (reading 'uid')"
  end.

End Auth.

Module View.

Inductive MessageType : Type := error | success.

(** What a page shows, element by element. *)
Inductive Widget : Type :=
| Heading (text : string)
| Prompt (text : string)
| CategoryButton (label : string) (active : bool)
| Spinner
| Info (text : string)
| Text (text : string)
| Card (e : Event.t) (favorite : bool)
| Row (e : Event.t) (selected : bool)
| Notice (type : MessageType) (text : string).

(** Modelled from the spec: [components/Message.jsx] is not among the
    sources. A notice is surfaced to the user (sections 4.4 and 7) when there
    is a message, and nothing is shown when there is none. *)
Definition Message (message : option string) (type : MessageType) : list Widget :=
  match message with
  | Some text => [Notice type text]
  | None => []
  end.

Definition is_error_notice (w : Widget) : bool :=
  match w with Notice error _ => true | _ => false end.

End View.

(** ** [pages/Home.jsx]: public browse and favorites *)

Module Home.

Import Firestore.

Definition CATEGORIES : list (string * string) :=
  [("All", "Svi"); ("Sports", "Sport"); ("Music", "Glazba");
   ("Social", "Druženje"); ("Other", "Ostalo")]%string.

(** The signals of the component, and the lines written to the console. *)
Record State : Type := mkState {
  events : list Event.t;
  loading : bool;
  favorites : list string;
  selectedCategory : string;
  console : list (string * string)
}.

Definition init : State :=
  {| events := []; loading := false; favorites := [];
     selectedCategory := "All"; console := [] |}.

Definition setEvents (v : list Event.t) (st : State) : State :=
  {| events := v; loading := loading st; favorites := favorites st;
     selectedCategory := selectedCategory st; console := console st |}.

Definition setLoading (v : bool) (st : State) : State :=
  {| events := events st; loading := v; favorites := favorites st;
     selectedCategory := selectedCategory st; console := console st |}.

Definition setFavorites (v : list string) (st : State) : State :=
  {| events := events st; loading := loading st; favorites := v;
     selectedCategory := selectedCategory st; console := console st |}.

Definition setSelectedCategory (v : string) (st : State) : State :=
  {| events := events st; loading := loading st; favorites := favorites st;
     selectedCategory := v; console := console st |}.

(** [console.error(label, error.message)] *)
Definition console_error (label msg : string) (st : State) : State :=
  {| events := events st; loading := loading st; favorites := favorites st;
     selectedCategory := selectedCategory st;
     console := console st ++ [(label, msg)] |}.

(** The query [loadEvents] builds (lines 32-39). *)
Definition compose (st : State) : Query :=
  let q := query collection_events [where_eq "isPrivate" (VBool false)] in
  if negb (String.eqb (selectedCategory st) "All")
  then query q [where_eq "category" (VString (selectedCategory st))]
  else q.

(** [loadEvents] up to [await getDocs(q)]. *)
Definition loadEvents_begin (st : State) : State * Query :=
  (setLoading true st, compose st).

(** [event.favorites?.includes(userId)] *)
Definition favorited_by (userId : string) (e : Event.t) : bool :=
  match Event.favorites (Event.data e) with
  | Some l => Event.array_includes l userId
  | None => false
  end.

(** [loadEvents] from the point where [getDocs] has settled. *)
Definition loadEvents_end (s : Auth.Session) (resp : Result (list Event.t))
    (st : State) : State :=
  match resp with
  | Ok loadedEvents =>
      let st1 := setEvents loadedEvents st in
      let st2 :=
        match s with
        | Some userId =>
            setFavorites
              (List.map Event.id (List.filter (favorited_by userId) loadedEvents))
              st1
        | None => st1
        end in
      setLoading false st2
  | Err msg => setLoading false (console_error "Event load failed" msg st)
  end.

Definition loadEvents (s : Auth.Session) (b : Backend) (st : State) : State :=
  let '(st1, q) := loadEvents_begin st in
  loadEvents_end s (getDocs b q) st1.

(** What [toggleFavorite] holds across its [await]: the event, the user
    and the membership bit read before the remote write. *)
Record Toggle : Type := mkToggle {
  t_eventId : string;
  t_userId : string;
  t_isFavorite : bool
}.

(** The membership bit: [favorites().includes(eventId)]. *)
Definition isFavorite (st : State) (eventId : string) : bool :=
  Event.array_includes (favorites st) eventId.

Definition toggle_write (t : Toggle) : Write :=
  if t_isFavorite t then arrayRemove (t_userId t) else arrayUnion (t_userId t).

(** [toggleFavorite] up to [await updateDoc(...)]: no signal is written;
    [None] is the early return of an anonymous visitor. *)
Definition toggleFavorite_begin (s : Auth.Session) (st : State) (eventId : string)
  : option (State * Toggle) :=
  match s with
  | None => None
  | Some userId =>
      Some (st, {| t_eventId := eventId; t_userId := userId;
                   t_isFavorite := isFavorite st eventId |})
  end.

Definition toggle_event (t : Toggle) (event : Event.t) : Event.t :=
  if String.eqb (Event.id event) (t_eventId t)
  then Event.set_favorites
         (if t_isFavorite t
          then Event.array_without (Event.favorites_or_empty event) (t_userId t)
          else Event.favorites_or_empty event ++ [t_userId t])
         event
  else event.

(** [toggleFavorite] from the point where [updateDoc] has settled. *)
Definition toggleFavorite_end (t : Toggle) (resp : Result unit) (st : State) : State :=
  match resp with
  | Ok _ =>
      let st1 :=
        setFavorites
          (if t_isFavorite t
           then Event.array_without (favorites st) (t_eventId t)
           else favorites st ++ [t_eventId t])
          st in
      setEvents (List.map (toggle_event t) (events st1)) st1
  | Err msg => console_error "Error toggling favorite" msg st
  end.

(** One whole call of [toggleFavorite], nothing else running in between. *)
Definition toggleFavorite (s : Auth.Session) (b : Backend) (st : State)
    (eventId : string) : State * Backend :=
  match toggleFavorite_begin s st eventId with
  | None => (st, b)
  | Some (st0, t) =>
      let '(resp, b') := updateDoc b (t_eventId t) (toggle_write t) in
      (toggleFavorite_end t resp st0, b')
  end.

(** The JSX of the component. *)
Definition render (s : Auth.Session) (st : State) : list View.Widget :=
  View.Heading "Javni događaji" ::
  (if Auth.isAuthenticated s then
     List.map (fun '(value, label) =>
                 View.CategoryButton label (String.eqb (selectedCategory st) value))
              CATEGORIES
     ++ (if loading st then [View.Spinner] else [])
     ++ (if negb (loading st) && (List.length (events st) =? 0)%nat
         then [View.Info "Nema javnih događaja u ovoj kategoriji."] else [])
     ++ (if negb (loading st) && (0 <? List.length (events st))%nat
         then List.map (fun e => View.Card e (isFavorite st (Event.id e))) (events st)
         else [])
   else [View.Prompt "Prijavite se kako biste vidjeli javne događaje"]).

(** *** The component under asynchronous interleaving

    Calls in flight are kept beside the signals; a call that settles runs
    its [_end] part on the signals as they are then. *)

Inductive Pending : Type :=
| PLoad (q : Query)
| PToggle (t : Toggle).

Record Config : Type := mkConfig {
  state : State;
  pending : list Pending
}.

Inductive step (s : Auth.Session) : Config -> Config -> Prop :=
| step_select (c : Config) (value : string) :
    In value (List.map fst CATEGORIES) ->
    step s c {| state := setSelectedCategory value (state c); pending := pending c |}
| step_load_begin (c : Config) :
    Auth.isAuthenticated s = true ->
    step s c {| state := fst (loadEvents_begin (state c));
                pending := pending c ++ [PLoad (snd (loadEvents_begin (state c)))] |}
| step_load_end (st : State) (l1 l2 : list Pending) (q : Query) (b : Backend) :
    step s {| state := st; pending := l1 ++ PLoad q :: l2 |}
           {| state := loadEvents_end s (getDocs b q) st; pending := l1 ++ l2 |}
| step_toggle_begin (c : Config) (eventId : string) (st0 : State) (t : Toggle) :
    toggleFavorite_begin s (state c) eventId = Some (st0, t) ->
    step s c {| state := st0; pending := pending c ++ [PToggle t] |}
| step_toggle_end (st : State) (l1 l2 : list Pending) (t : Toggle) (resp : Result unit) :
    step s {| state := st; pending := l1 ++ PToggle t :: l2 |}
           {| state := toggleFavorite_end t resp st; pending := l1 ++ l2 |}.

Inductive reachable (s : Auth.Session) : Config -> Prop :=
| reachable_init : reachable s {| state := init; pending := [] |}
| reachable_step (c c' : Config) : reachable s c -> step s c c' -> reachable s c'.

End Home.

(** ** [pages/EventManagement.jsx]: the owner's events and the form *)

(** What the page takes from the browser: the session, the offset of the local
    time zone (minutes, at an instant), the parser behind [new Date(string)]
    and the formatter behind [toLocaleString("hr-HR", ...)]. *)
Record Env : Type := mkEnv {
  session : Auth.Session;
  timezoneOffset : Z -> Z;
  parseDate : string -> JsDate.t;
  toLocaleString : JsDate.t -> string
}.

Module EventManagement.

Import Firestore.

Definition CATEGORIES : list string := ["Sports"; "Music"; "Social"; "Other"]%string.

(** The values held by the fields of the form ([formRef]). *)
Record Form : Type := mkForm {
  f_name : string;
  f_category : string;
  f_description : string;
  f_datetime : string;
  f_isPrivate : bool
}.

(** [form.reset()]: empty inputs, the first option of the select, the toggle off. *)
Definition blank_form : Form :=
  {| f_name := ""; f_category := "Sports"; f_description := "";
     f_datetime := ""; f_isPrivate := false |}.

Record State : Type := mkState {
  searchTerm : string;
  filterCategory : string;
  events : list Event.t;
  selectedEvent : option Event.t;
  loading : bool;
  error : option string;
  success : option string;
  form : Form;
  console : list string
}.

Definition init : State :=
  {| searchTerm := ""; filterCategory := ""; events := []; selectedEvent := None;
     loading := false; error := None; success := None; form := blank_form;
     console := [] |}.

Definition setSearchTerm (v : string) (st : State) : State :=
  {| searchTerm := v; filterCategory := filterCategory st; events := events st;
     selectedEvent := selectedEvent st; loading := loading st; error := error st;
     success := success st; form := form st; console := console st |}.

Definition setFilterCategory (v : string) (st : State) : State :=
  {| searchTerm := searchTerm st; filterCategory := v; events := events st;
     selectedEvent := selectedEvent st; loading := loading st; error := error st;
     success := success st; form := form st; console := console st |}.

Definition setEvents (v : list Event.t) (st : State) : State :=
  {| searchTerm := searchTerm st; filterCategory := filterCategory st; events := v;
     selectedEvent := selectedEvent st; loading := loading st; error := error st;
     success := success st; form := form st; console := console st |}.

Definition setSelectedEvent (v : option Event.t) (st : State) : State :=
  {| searchTerm := searchTerm st; filterCategory := filterCategory st;
     events := events st; selectedEvent := v; loading := loading st;
     error := error st; success := success st; form := form st;
     console := console st |}.

Definition setLoading (v : bool) (st : State) : State :=
  {| searchTerm := searchTerm st; filterCategory := filterCategory st;
     events := events st; selectedEvent := selectedEvent st; loading := v;
     error := error st; success := success st; form := form st;
     console := console st |}.

Definition setError (v : option string) (st : State) : State :=
  {| searchTerm := searchTerm st; filterCategory := filterCategory st;
     events := events st; selectedEvent := selectedEvent st; loading := loading st;
     error := v; success := success st; form := form st; console := console st |}.

Definition setSuccess (v : option string) (st : State) : State :=
  {| searchTerm := searchTerm st; filterCategory := filterCategory st;
     events := events st; selectedEvent := selectedEvent st; loading := loading st;
     error := error st; success := v; form := form st; console := console st |}.

Definition setForm (v : Form) (st : State) : State :=
  {| searchTerm := searchTerm st; filterCategory := filterCategory st;
     events := events st; selectedEvent := selectedEvent st; loading := loading st;
     error := error st; success := success st; form := v; console := console st |}.

(** [console.error(err)], and the browser's report of an exception nobody
    caught. *)
Definition console_error (msg : string) (st : State) : State :=
  {| searchTerm := searchTerm st; filterCategory := filterCategory st;
     events := events st; selectedEvent := selectedEvent st; loading := loading st;
     error := error st; success := success st; form := form st;
     console := console st ++ [msg] |}.

(** The query of [loadEvents] and of [searchEvents] (lines 36-44 and 77-85). *)
Definition compose (userId : string) (st : State) : Query :=
  let q := query collection_events
             [where_eq "userId" (VString userId); orderBy "created" desc] in
  if JsString.truthy (filterCategory st)
  then query q [where_eq "category" (VString (filterCategory st))]
  else q.

(** The request a guarded block sends: the query, or the exception raised
    before it could be sent. *)
Definition request (env : Env) (st : State) : Result Query :=
  match Auth.currentUid (session env) with
  | Ok userId => Ok (compose userId st)
  | Err msg => Err msg
  end.

(** The answer to a request: an exception raised before the call is caught
    by the same [catch] as a rejected call. *)
Definition answer (b : Backend) (rq : Result Query) : Result (list Event.t) :=
  match rq with
  | Ok q => getDocs b q
  | Err msg => Err msg
  end.

(** [loadEvents] up to the [await]. *)
Definition loadEvents_begin (env : Env) (st : State) : State * Result Query :=
  let st1 := setLoading true st in
  (st1, request env st1).

(** [loadEvents] from the point where [getDocs] has settled. *)
Definition loadEvents_end (resp : Result (list Event.t)) (st : State) : State :=
  match resp with
  | Ok loadedEvents => setLoading false (setEvents loadedEvents st)
  | Err msg =>
      setLoading false
        (setError (Some "Greška pri učitavanju događaja") (console_error msg st))
  end.

Definition loadEvents (env : Env) (b : Backend) (st : State) : State :=
  let '(st1, rq) := loadEvents_begin env st in
  loadEvents_end (answer b rq) st1.

(** [event.name?.toLowerCase().includes(term)] *)
Definition name_matches (term : string) (event : Event.t) : bool :=
  match Event.name (Event.data event) with
  | Some n => JsString.includes (JsString.toLowerCase n) term
  | None => false
  end.

(** [searchTerm().toLowerCase().trim()] *)
Definition search_term (st : State) : string :=
  JsString.trim (JsString.toLowerCase (searchTerm st)).

(** [!term || term.length <= 2] *)
Definition too_short (term : string) : bool :=
  negb (JsString.truthy term) || (String.length term <=? 2)%nat.

(** [searchEvents] from the point where [getDocs] has settled. *)
Definition searchEvents_end (term : string) (resp : Result (list Event.t))
    (st : State) : State :=
  match resp with
  | Ok docs => setLoading false (setEvents (List.filter (name_matches term) docs) st)
  | Err msg =>
      setLoading false
        (setError (Some "Greška pri pretraživanju") (console_error msg st))
  end.

Definition searchEvents (env : Env) (b : Backend) (st : State) : State :=
  let term := search_term st in
  if too_short term then loadEvents env b st
  else
    let st1 := setLoading true st in
    searchEvents_end term (answer b (request env st1)) st1.

(** [eventData] (lines 109-117), from the fields of the submitted form. *)
Definition eventData (env : Env) (userId : string) (now : Z) (f : Form)
  : Event.Payload :=
  {| Event.p_name := JsString.trim (f_name f);
     Event.p_description := JsString.trim (f_description f);
     Event.p_datetime := parseDate env (f_datetime f);
     Event.p_isPrivate := f_isPrivate f;
     Event.p_category := if JsString.truthy (f_category f) then f_category f else "Other";
     Event.p_userId := userId;
     Event.p_created := now |}.

(** [{ ...ev, ...eventData }] *)
Definition merge (ev : Event.t) (p : Event.Payload) : Event.t :=
  {| Event.id := Event.id ev; Event.data := Event.spread (Event.data ev) p |}.

(** The [catch] of [handleSubmit]. *)
Definition submit_failed (msg : string) (st : State) : State :=
  let st1 := console_error msg st in
  setError
    (Some (match selectedEvent st1 with
           | Some _ => "Ažuriranje nije uspjelo"
           | None => "Dodavanje nije uspjelo"
           end))
    st1.

(** The update branch once [updateDoc] has settled; [sel] is what
    [selectedEvent()] reads, before and after the [await], in a run with no
    other handler in between. *)
Definition update_end (sel : Event.t) (p : Event.Payload) (resp : Result unit)
    (st : State) : State :=
  match resp with
  | Ok _ =>
      let st1 :=
        setEvents
          (List.map (fun ev => if String.eqb (Event.id ev) (Event.id sel)
                               then merge ev p else ev)
                    (events st))
          st in
      let st2 := setSelectedEvent (Some (merge sel p)) st1 in
      setSuccess (Some "Događaj ažuriran") st2
  | Err msg => submit_failed msg st
  end.

(** The create branch once [addDoc] has settled. *)
Definition create_end (p : Event.Payload) (resp : Result string) (st : State) : State :=
  match resp with
  | Ok newId =>
      let st1 := setEvents (events st ++ [Event.mk newId (Event.of_payload p)]) st in
      setSuccess (Some "Događaj dodan") (setForm blank_form st1)
  | Err msg => submit_failed msg st
  end.

(** [handleSubmit] at instant [now]; [fresh] is the id the store would give
    to a new document. *)
Definition handleSubmit (env : Env) (now : Z) (fresh : string) (b : Backend)
    (st : State) : State * Backend :=
  let st1 := setSuccess None (setError None st) in
  match Auth.currentUid (session env) with
  | Err msg => (console_error msg st1, b)
  | Ok userId =>
      let p := eventData env userId now (form st1) in
      match selectedEvent st1 with
      | Some sel =>
          let '(resp, b') := updateDoc b (Event.id sel) (set_fields p) in
          (update_end sel p resp st1, b')
      | None =>
          let '(resp, b') := addDoc b fresh p in
          (create_end p resp st1, b')
      end
  end.

(** [handleDelete]; [confirmed] is the answer to the confirmation dialog. *)
Definition handleDelete (confirmed : bool) (b : Backend) (st : State)
  : State * Backend :=
  if negb confirmed then (st, b)
  else
    let st1 := setSuccess None (setError None st) in
    match selectedEvent st1 with
    | None =>
        (setError (Some "Brisanje nije uspjelo")
           (console_error "TypeError: Cannot read properties of null (reading 'id')" st1),
         b)
    | Some sel =>
        let '(resp, b') := deleteDoc b (Event.id sel) in
        match resp with
        | Ok _ =>
            let st2 :=
              setEvents
                (List.filter (fun ev => negb (String.eqb (Event.id ev) (Event.id sel)))
                             (events st1))
                st1 in
            (setSuccess (Some "Događaj obrisan")
               (setForm blank_form (setSelectedEvent None st2)),
             b')
        | Err msg => (setError (Some "Brisanje nije uspjelo") (console_error msg st1), b')
        end
    end.

(** The conversion at the head of the form effect and of [formatEventDate]:
    [v.toDate ? v.toDate() : v]. *)
Definition to_date (v : DateTimeVal) : JsDate.t :=
  match v with
  | DTTimestamp ts => Timestamp.toDate ts
  | DTDate d => d
  end.

(** The value given to the [datetime-local] field (lines 171-174):
    [new Date(date.getTime() - date.getTimezoneOffset() * 60000)
       .toISOString().slice(0, 16)]. *)
Definition datetime_field (env : Env) (v : DateTimeVal) : Result string :=
  let date := to_date v in
  let shifted :=
    JsDate.of_number
      (match JsDate.getTime date, JsDate.getTimezoneOffset (timezoneOffset env) date with
       | Some t, Some off => Some (t - off * 60000)
       | _, _ => None
       end) in
  match JsDate.toISOString shifted with
  | Ok iso => Ok (JsDate.slice0 16 iso)
  | Err msg => Err msg
  end.

(** The effect that fills the form from the selected event (lines 164-178).
    The second component is the exception the effect raises, if any; the
    fields written before it stay written. *)
Definition formEffect (env : Env) (st : State) : State * option string :=
  match selectedEvent st with
  | None => (st, None)
  | Some ev =>
      let d := Event.data ev in
      let f := form st in
      let f1 :=
        {| f_name := match Event.name d with Some n => n | None => "" end;
           f_description := Event.description d;
           f_category := if JsString.truthy (Event.category d)
                         then Event.category d else "Other";
           f_datetime := f_datetime f;
           f_isPrivate := f_isPrivate f |} in
      match Event.datetime d with
      | None =>
          (setForm {| f_name := f_name f1; f_description := f_description f1;
                      f_category := f_category f1; f_datetime := f_datetime f1;
                      f_isPrivate := Event.isPrivate d |} st, None)
      | Some v =>
          match datetime_field env v with
          | Ok text =>
              (setForm {| f_name := f_name f1; f_description := f_description f1;
                          f_category := f_category f1; f_datetime := text;
                          f_isPrivate := Event.isPrivate d |} st, None)
          | Err msg => (setForm f1 st, Some msg)
          end
      end
  end.


(** The JSX of the component; search box, category select and form inputs
    are controls and are not listed. *)
Definition render (st : State) : list View.Widget :=
  [View.Heading (match selectedEvent st with
                 | Some _ => "Uređivanje događaja"
                 | None => "Upravljanje događajima"
                 end)]
  ++ (if loading st then [View.Spinner] else [])
  ++ (if (0 <? List.length (events st))%nat && negb (loading st)
      then List.map
             (fun e => View.Row e
                         (match selectedEvent st with
                          | Some sel => String.eqb (Event.id sel) (Event.id e)
                          | None => false
                          end))
             (events st)
      else [])
  ++ [View.Text "//filtriranje"]
  ++ (if negb (loading st) && (List.length (events st) =? 0)%nat
      then [View.Info "Nema događaja koji odgovaraju filtrima."] else [])
  ++ View.Message (error st) View.error
  ++ View.Message (success st) View.success.

End EventManagement.

(** ** Vocabulary of the specification *)

Module Spec.

Import Firestore.


(** A list of events is ordered by [created], newest first. *)
Definition ordered_desc (l : list Event.t) : Prop :=
  StronglySorted
    (fun a b => Event.created (Event.data b) <= Event.created (Event.data a)) l.

(** The number of users in the [favorites] set of an event. *)
Definition favorites_card (e : Event.t) : nat :=
  size (list_to_set (Event.favorites_or_empty e) : gset string).

Definition all_public (l : list Event.t) : Prop :=
  Forall (fun e => Event.isPrivate (Event.data e) = false) l.

(** A page surfaces an error notice. *)
Definition shows_error_notice (page : list View.Widget) : Prop :=
  Exists (fun w => View.is_error_notice w = true) page.

(** The store serves and holds the document: a patch to it is acknowledged. *)
Definition acknowledges (b : Backend) (eventId : string) : Prop :=
  exists coll d, b = Serving coll /\ coll !! eventId = Some d.

(** The favorites index agrees with the mirror: an event of the mirror is in
    the index exactly when the user is in its [favorites]. *)
Definition consistent (userId : string) (st : Home.State) : Prop :=
  forall e, In e (Home.events st) ->
    Home.isFavorite st (Event.id e) = Home.favorited_by userId e.

(** What holds of every configuration of the browse page: the mirror is
    public, and so is what any load in flight asks for. *)
Definition browse_inv (c : Home.Config) : Prop :=
  all_public (Home.events (Home.state c)) /\
  Forall (fun p => match p with
                   | Home.PLoad q => In ("isPrivate"%string, VBool false) (q_filters q)
                   | Home.PToggle _ => True
                   end) (Home.pending c).

(** And, for the signed-in user: the index agrees with the mirror, and the
    toggles in flight are the user's. *)
Definition index_inv (u : string) (c : Home.Config) : Prop :=
  consistent u (Home.state c) /\
  Forall (fun p => match p with
                   | Home.PToggle t => Home.t_userId t = u
                   | Home.PLoad _ => True
                   end) (Home.pending c).

(** The optimistic reading of the favorite toggle: the bit is flipped while
    the patch is in flight, and stays flipped when the patch fails. *)
Definition optimistic_toggle : Prop :=
  forall (s : Auth.Session) (st st0 : Home.State) (eventId : string) (t : Home.Toggle),
    Home.toggleFavorite_begin s st eventId = Some (st0, t) ->
    Home.isFavorite st0 eventId = negb (Home.isFavorite st eventId) /\
    forall msg,
      Home.isFavorite (Home.toggleFavorite_end t (Err msg) st0) eventId
      = negb (Home.isFavorite st eventId).

(** Every composed query returns its results newest first. *)
Definition every_query_ordered : Prop :=
  forall coll : gmap string Event.Data,
    (forall userId st, ordered_desc (run_query coll (EventManagement.compose userId st))) /\
    (forall st, ordered_desc (run_query coll (Home.compose st))).

(** A failed load keeps the events and surfaces a notice, in both views. *)
Definition load_failure_noticed : Prop :=
  (forall env msg st,
      let st' := EventManagement.loadEvents env (Failing msg) st in
      EventManagement.events st' = EventManagement.events st /\
      shows_error_notice (EventManagement.render st')) /\
  (forall s msg st,
      Auth.isAuthenticated s = true ->
      let st' := Home.loadEvents s (Failing msg) st in
      Home.events st' = Home.events st /\
      shows_error_notice (Home.render s st')).

(** A successful create breaks the order of every ordered mirror. *)
Definition create_breaks_order : Prop :=
  forall env now fresh b st st' b',
    EventManagement.selectedEvent st = None ->
    EventManagement.handleSubmit env now fresh b st = (st', b') ->
    EventManagement.success st' = Some "Događaj dodan"%string ->
    ordered_desc (EventManagement.events st) ->
    ~ ordered_desc (EventManagement.events st').



(** Two documents that differ at most in [favorites]. *)
Definition same_but_favorites (d d' : Event.Data) : Prop :=
  Event.name d' = Event.name d /\
  Event.description d' = Event.description d /\
  Event.datetime d' = Event.datetime d /\
  Event.isPrivate d' = Event.isPrivate d /\
  Event.category d' = Event.category d /\
  Event.userId d' = Event.userId d /\
  Event.created d' = Event.created d.

End Spec.

(** ** Sample data *)

Module Sample.

Import Firestore.

Definition event_data (n cat owner : string) (private : bool) (at_ : Z)
    (favs : option (list string)) : Event.Data :=
  {| Event.name := Some n; Event.description := "";
     Event.datetime := Some (DTTimestamp (Timestamp.fromMillis 1740823200000));
     Event.isPrivate := private; Event.category := cat; Event.userId := owner;
     Event.created := at_; Event.favorites := favs |}.

(** The catalog of the scenario of section 8: A is a public Music event,
    B a private Sports event. *)
Definition A : Event.t := Event.mk "a" (event_data "A" "Music" "u1" false 1000 None).
Definition B : Event.t := Event.mk "b" (event_data "B" "Sports" "u2" true 2000 None).

Definition catalog_AB : gmap string Event.Data :=
  <[Event.id A := Event.data A]> (<[Event.id B := Event.data B]> ∅).

(** Two public events, the one with the smaller id created first. *)
Definition P1 : Event.t := Event.mk "a" (event_data "First" "Music" "u1" false 1000 None).
Definition P2 : Event.t := Event.mk "b" (event_data "Second" "Music" "u1" false 2000 None).

Definition catalog_public : gmap string Event.Data :=
  <[Event.id P1 := Event.data P1]> (<[Event.id P2 := Event.data P2]> ∅).

Definition music_selected : Home.State := Home.setSelectedCategory "Music" Home.init.

(** The browse page of user [u1] once the public catalog is loaded, and the
    toggle of the first event that [u1] has not favorited yet. *)
Definition u1 : Auth.Session := Some "u1"%string.

Definition browsing : Home.State :=
  Home.loadEvents u1 (Serving catalog_public) Home.init.

Definition loaded : Home.Config :=
  {| Home.state := browsing; Home.pending := [] |}.

Definition toggle_a : Home.Toggle :=
  {| Home.t_eventId := "a"; Home.t_userId := "u1"; Home.t_isFavorite := false |}.

(** The management page of [u1] in a session one hour east of UTC. *)
Definition env : Env :=
  {| session := u1;
     timezoneOffset := fun _ => -60;
     parseDate := fun text => if String.eqb text "2025-03-01T10:00"
                              then JsDate.Valid 1740819600000 else JsDate.Invalid;
     toLocaleString := fun _ => ""%string |}.

Definition managing : EventManagement.State :=
  EventManagement.loadEvents env (Serving catalog_public) EventManagement.init.

(** [u1] has selected the first event and typed a new name. *)
Definition editing : EventManagement.State :=
  EventManagement.setForm
    {| EventManagement.f_name := "First (moved)";
       EventManagement.f_category := "Music";
       EventManagement.f_description := "Hall B";
       EventManagement.f_datetime := "2025-03-01T10:00";
       EventManagement.f_isPrivate := false |}
    (EventManagement.setSelectedEvent (Some P1) managing).

(** [u1] has filled the form of a new event on an empty page. *)
Definition drafting : EventManagement.State :=
  EventManagement.setForm
    {| EventManagement.f_name := "Opening";
       EventManagement.f_category := "Social";
       EventManagement.f_description := "Doors at ten";
       EventManagement.f_datetime := "2025-03-01T10:00";
       EventManagement.f_isPrivate := false |}
    EventManagement.init.

(** The same, on the page that lists the two events of [u1]. *)
Definition drafting_more : EventManagement.State :=
  EventManagement.setForm (EventManagement.form drafting) managing.


End Sample.

(** * Properties *)

(** ** Checks of the string and date operations on known values *)

Example trim_ex : JsString.trim "  Rock Fest 	" = "Rock Fest"%string.
Proof. reflexivity. Qed.

Example includes_ex :
  JsString.includes (JsString.toLowerCase "Summer ROCK Fest") "rock" = true.
Proof. reflexivity. Qed.

Example iso_ex :
  JsDate.toISOString (JsDate.Valid 1740823200000) = Ok "2025-03-01T10:00:00.000Z"%string.
Proof. reflexivity. Qed.

Example iso_leap_ex :
  JsDate.toISOString (JsDate.Valid 951782399999) = Ok "2000-02-28T23:59:59.999Z"%string.
Proof. reflexivity. Qed.

Example iso_before_epoch_ex :
  JsDate.toISOString (JsDate.Valid (-1)) = Ok "1969-12-31T23:59:59.999Z"%string.
Proof. reflexivity. Qed.

(** ** Strings *)

Section StringFacts.

Import JsString.













End StringFacts.

(** ** The store *)

Section StoreFacts.

Import Firestore.

Lemma insert_sorted_perm (leb : Event.t -> Event.t -> bool) (x : Event.t)
    (l : list Event.t) :
  Permutation (insert_sorted leb x l) (x :: l).
Proof.
  induction l as [|y l IH]; simpl; [reflexivity |].
  destruct (leb x y); [reflexivity |].
  rewrite IH. apply perm_swap.
Qed.

Lemma sort_docs_perm (leb : Event.t -> Event.t -> bool) (l : list Event.t) :
  Permutation (sort_docs leb l) l.
Proof.
  induction l as [|x l IH]; simpl; [reflexivity |].
  rewrite insert_sorted_perm. now rewrite IH.
Qed.

Lemma insert_sorted_Sorted (R : Event.t -> Event.t -> Prop)
    (leb : Event.t -> Event.t -> bool) (x : Event.t) (l : list Event.t) :
  (forall a b, leb a b = true -> R a b) ->
  (forall a b, leb a b = false -> R b a) ->
  Sorted R l -> Sorted R (insert_sorted leb x l).
Proof.
  intros Ht Hf. induction l as [|y l IH]; intros Hs; simpl.
  - repeat constructor.
  - destruct (leb x y) eqn:E.
    + constructor; [exact Hs | constructor; auto].
    + apply Sorted_inv in Hs as [Hs Hhd].
      constructor; [auto |].
      destruct l as [|z l]; simpl.
      * constructor. auto.
      * destruct (leb x z); constructor; auto.
        now apply HdRel_inv in Hhd.
Qed.

Lemma sort_docs_Sorted (R : Event.t -> Event.t -> Prop)
    (leb : Event.t -> Event.t -> bool) (l : list Event.t) :
  (forall a b, leb a b = true -> R a b) ->
  (forall a b, leb a b = false -> R b a) ->
  Sorted R (sort_docs leb l).
Proof.
  intros Ht Hf. induction l as [|x l IH]; simpl; [constructor |].
  now apply insert_sorted_Sorted.
Qed.

Lemma docs_of_lookup (coll : gmap string Event.Data) (e : Event.t) :
  In e (docs_of coll) <-> coll !! Event.id e = Some (Event.data e).
Proof.
  unfold docs_of. rewrite <- list_elem_of_In, list_elem_of_fmap. split.
  - intros [[i d] [-> H]]. now apply elem_of_map_to_list in H.
  - intros H. exists (Event.id e, Event.data e). split.
    + now destruct e.
    + now apply elem_of_map_to_list.
Qed.

Lemma docs_of_NoDup (coll : gmap string Event.Data) :
  NoDup (List.map Event.id (docs_of coll)).
Proof.
  unfold docs_of.
  replace (List.map Event.id ((fun '(i, d) => Event.mk i d) <$> map_to_list coll))
    with ((map_to_list coll).*1).
  - apply NoDup_fst_map_to_list.
  - induction (map_to_list coll) as [|[i d] l IH]; [reflexivity |].
    cbn. f_equal. exact IH.
Qed.

(** A query returns documents of the collection that satisfy it. *)
Lemma run_query_sound (coll : gmap string Event.Data) (q : Query) (e : Event.t) :
  In e (run_query coll q) ->
  coll !! Event.id e = Some (Event.data e) /\ satisfies q (Event.data e) = true.
Proof.
  unfold run_query. intros H.
  apply (Permutation_in _ (sort_docs_perm _ _)) in H.
  apply filter_In in H as [H1 H2]. split; [now apply docs_of_lookup | exact H2].
Qed.

(** It returns all of them. *)
Lemma run_query_complete (coll : gmap string Event.Data) (q : Query) (e : Event.t) :
  coll !! Event.id e = Some (Event.data e) ->
  satisfies q (Event.data e) = true ->
  In e (run_query coll q).
Proof.
  intros H1 H2. unfold run_query.
  apply (Permutation_in _ (Permutation_sym (sort_docs_perm _ _))).
  apply filter_In. split; [now apply docs_of_lookup | exact H2].
Qed.

(** Document ids are unique in a snapshot. *)
Lemma run_query_NoDup (coll : gmap string Event.Data) (q : Query) :
  NoDup (List.map Event.id (run_query coll q)).
Proof.
  unfold run_query.
  rewrite (Permutation_map Event.id (sort_docs_perm _ _)).
  generalize (docs_of_NoDup coll).
  induction (docs_of coll) as [|x l IH]; simpl; intros Hnd; [constructor |].
  apply NoDup_cons in Hnd as [Hx Hl].
  destruct (satisfies q (Event.data x)); simpl; [| auto].
  apply NoDup_cons. split; [| auto].
  intros Hin. apply Hx.
  rewrite list_elem_of_In in *. apply in_map_iff in Hin as (y & <- & Hy).
  apply in_map. now apply filter_In in Hy.
Qed.

Lemma satisfies_filter (q : Query) (d : Event.Data) (f : string) (v : Value) :
  In (f, v) (q_filters q) -> satisfies q d = true -> get_field f d = Some v.
Proof.
  unfold satisfies. intros Hin H. apply andb_prop in H as [H _].
  rewrite forallb_forall in H. specialize (H _ Hin). simpl in H.
  now apply bool_decide_eq_true in H.
Qed.

(** Without an order clause the documents come in the store's own order. *)
Lemma sort_docs_no_order (leb : Event.t -> Event.t -> bool) (l : list Event.t) :
  (forall a b, leb a b = true) -> sort_docs leb l = l.
Proof.
  intros H. induction l as [|x l IH]; [reflexivity |].
  change (sort_docs leb (x :: l)) with (insert_sorted leb x (sort_docs leb l)).
  rewrite IH. destruct l; simpl; [reflexivity | now rewrite H].
Qed.

Lemma created_desc_leb (a b : Event.Data) :
  doc_leb [("created"%string, desc)] a b = (Event.created b <=? Event.created a).
Proof.
  simpl. destruct (Z.compare_spec (Event.created a) (Event.created b));
    symmetry; [apply Z.leb_le | apply Z.leb_gt | apply Z.leb_le]; lia.
Qed.

Lemma run_query_created_desc (coll : gmap string Event.Data) (q : Query) :
  q_order q = [("created"%string, desc)] ->
  Spec.ordered_desc (run_query coll q).
Proof.
  intros Ho. unfold Spec.ordered_desc, run_query. rewrite Ho.
  apply Sorted_StronglySorted.
  - intros a b c Hab Hbc. lia.
  - apply sort_docs_Sorted; intros a b; rewrite created_desc_leb.
    + intros H. now apply Z.leb_le in H.
    + intros H. apply Z.leb_gt in H. lia.
Qed.

End StoreFacts.

(** ** Public browse: what is queried and what can be shown *)

Section BrowseFacts.

Import Firestore.

Lemma browse_query_filters (st : Home.State) :
  In ("isPrivate"%string, VBool false) (q_filters (Home.compose st)).
Proof.
  unfold Home.compose. destruct (negb _); simpl; auto.
Qed.

Lemma browse_query_unordered (st : Home.State) : q_order (Home.compose st) = [].
Proof. unfold Home.compose. destruct (negb _); reflexivity. Qed.

Lemma public_of_satisfies (q : Query) (d : Event.Data) :
  In ("isPrivate"%string, VBool false) (q_filters q) ->
  satisfies q d = true -> Event.isPrivate d = false.
Proof.
  intros Hin Hs. pose proof (satisfies_filter _ _ _ _ Hin Hs) as H.
  change (Some (VBool (Event.isPrivate d)) = Some (VBool false)) in H.
  congruence.
Qed.

Lemma toggle_event_private (t : Home.Toggle) (e : Event.t) :
  Event.isPrivate (Event.data (Home.toggle_event t e)) = Event.isPrivate (Event.data e).
Proof. unfold Home.toggle_event. destruct (String.eqb _ _); reflexivity. Qed.

Lemma toggle_event_id (t : Home.Toggle) (e : Event.t) :
  Event.id (Home.toggle_event t e) = Event.id e.
Proof. unfold Home.toggle_event. destruct (String.eqb _ _); reflexivity. Qed.

Lemma browse_inv_step (s : Auth.Session) (c c' : Home.Config) :
  Spec.browse_inv c -> Home.step s c c' -> Spec.browse_inv c'.
Proof.
  intros [Hev Hp] Hstep. destruct Hstep; simpl in *.
  - split; assumption.
  - split; [assumption |].
    apply Forall_app. split; [assumption |].
    constructor; [apply browse_query_filters | constructor].
  - apply Forall_app in Hp as [Hp1 Hp2]. apply Forall_cons in Hp2 as [Hq Hp2].
    split; [| apply Forall_app; split; assumption].
    destruct b as [coll | msg]; simpl; [| assumption].
    assert (Hall : Spec.all_public (run_query coll q)).
    { apply Forall_forall. intros e He. rewrite list_elem_of_In in He.
      apply run_query_sound in He as [_ He].
      now apply (public_of_satisfies q). }
    destruct s; assumption.
  - unfold Home.toggleFavorite_begin in H. destruct s; [| discriminate].
    injection H as <- <-. split; [assumption |].
    apply Forall_app. split; [assumption | repeat constructor].
  - apply Forall_app in Hp as [Hp1 Hp2]. apply Forall_cons in Hp2 as [_ Hp2].
    split; [| apply Forall_app; split; assumption].
    destruct resp as [[] | msg]; simpl; [| assumption].
    unfold Spec.all_public in *. rewrite Forall_forall in *.
    intros e He. rewrite list_elem_of_In in He.
    apply in_map_iff in He as (e0 & <- & He0).
    rewrite toggle_event_private. apply Hev. now rewrite list_elem_of_In.
Qed.

Lemma browse_inv_reachable (s : Auth.Session) (c : Home.Config) :
  Home.reachable s c -> Spec.browse_inv c.
Proof.
  induction 1 as [| c c' _ IH Hstep].
  - split; constructor.
  - eapply browse_inv_step; eassumption.
Qed.

(** C7. The events shown by the public-browse view are never private: every
    load asks for [isPrivate == false], whatever the selected category, and
    nothing that runs afterwards (a toggle, a later load, in any interleaving)
    brings a private event in. On the catalog {A (Music, public),
    B (Sports, private)} the categories "All" and "Music" both give A alone. *)
Theorem browse_never_private :
  (forall st, In ("isPrivate"%string, VBool false) (q_filters (Home.compose st))) /\
  (forall s c, Home.reachable s c -> Spec.all_public (Home.events (Home.state c))) /\
  (forall s, Home.events (Home.loadEvents s (Serving Sample.catalog_AB) Home.init)
             = [Sample.A]) /\
  (forall s, Home.events
               (Home.loadEvents s (Serving Sample.catalog_AB) Sample.music_selected)
             = [Sample.A]).
Proof.
  split; [exact browse_query_filters |].
  split; [intros s c H; exact (proj1 (browse_inv_reachable s c H)) |].
  split; intros s; destruct s; vm_compute; reflexivity.
Qed.

End BrowseFacts.

(** ** Arrays of ids *)

Section ArrayFacts.

Import Event.

Lemma array_includes_In (l : list string) (x : string) :
  array_includes l x = true <-> In x l.
Proof.
  unfold array_includes. rewrite existsb_exists. split.
  - intros [y [Hy He]]. apply String.eqb_eq in He. now subst.
  - intros H. exists x. split; [assumption | apply String.eqb_refl].
Qed.

Lemma array_without_In (l : list string) (x y : string) :
  In y (array_without l x) <-> In y l /\ y <> x.
Proof.
  unfold array_without. rewrite filter_In, negb_true_iff, String.eqb_neq. tauto.
Qed.

Lemma includes_eq_of_iff (l l' : list string) (x : string) :
  (In x l <-> In x l') -> array_includes l x = array_includes l' x.
Proof.
  intros H. destruct (array_includes l x) eqn:E1, (array_includes l' x) eqn:E2;
    try reflexivity.
  - apply array_includes_In, H, array_includes_In in E1. congruence.
  - apply array_includes_In, H, array_includes_In in E2. congruence.
Qed.

Lemma includes_without_same (l : list string) (x : string) :
  array_includes (array_without l x) x = false.
Proof.
  apply not_true_is_false. rewrite array_includes_In, array_without_In. tauto.
Qed.

Lemma includes_push_same (l : list string) (x : string) :
  array_includes (l ++ [x]) x = true.
Proof. apply array_includes_In, in_or_app. right. now left. Qed.

Lemma includes_without_other (l : list string) (x y : string) :
  y <> x -> array_includes (array_without l x) y = array_includes l y.
Proof. intros H. apply includes_eq_of_iff. rewrite array_without_In. tauto. Qed.

Lemma includes_push_other (l : list string) (x y : string) :
  y <> x -> array_includes (l ++ [x]) y = array_includes l y.
Proof.
  intros H. apply includes_eq_of_iff. rewrite in_app_iff. simpl.
  split; [intros [?|[?|[]]]; [assumption | congruence] | auto].
Qed.

Lemma array_without_absent (l : list string) (x : string) :
  ~ In x l -> array_without l x = l.
Proof.
  intros H. induction l as [|y l IH]; [reflexivity |].
  unfold array_without in *. simpl.
  destruct (String.eqb_spec y x) as [->|Hne]; simpl.
  - exfalso. apply H. now left.
  - f_equal. apply IH. intros Hin. apply H. now right.
Qed.

Lemma array_without_push (l : list string) (x : string) :
  array_without (l ++ [x]) x = array_without l x.
Proof.
  unfold array_without. rewrite List.filter_app. simpl.
  rewrite String.eqb_refl. simpl. apply app_nil_r.
Qed.

End ArrayFacts.

(** ** The favorite toggle *)

Section ToggleFacts.

Import Firestore.

Lemma toggle_begin_inv (s : Auth.Session) (st st0 : Home.State) (eventId : string)
    (t : Home.Toggle) :
  Home.toggleFavorite_begin s st eventId = Some (st0, t) ->
  st0 = st /\
  s = Some (Home.t_userId t) /\
  Home.t_eventId t = eventId /\
  Home.t_isFavorite t = Home.isFavorite st eventId.
Proof.
  unfold Home.toggleFavorite_begin. destruct s as [u|]; [| discriminate].
  intros H. injection H as <- <-. auto.
Qed.

(** Once acknowledged, the bit of the toggled event in the index is the
    opposite of the bit read before the patch. *)
Lemma toggle_ok_index (t : Home.Toggle) (st : Home.State) :
  Home.isFavorite (Home.toggleFavorite_end t (Ok tt) st) (Home.t_eventId t)
  = negb (Home.t_isFavorite t).
Proof.
  unfold Home.isFavorite. simpl. destruct (Home.t_isFavorite t); simpl.
  - apply includes_without_same.
  - apply includes_push_same.
Qed.

Lemma toggle_ok_index_other (t : Home.Toggle) (st : Home.State) (i : string) :
  i <> Home.t_eventId t ->
  Home.isFavorite (Home.toggleFavorite_end t (Ok tt) st) i = Home.isFavorite st i.
Proof.
  intros H. unfold Home.isFavorite. simpl. destruct (Home.t_isFavorite t); simpl.
  - now apply includes_without_other.
  - now apply includes_push_other.
Qed.

(** And so is the user's membership in the [favorites] of the entry. *)
Lemma toggle_event_member (t : Home.Toggle) (e : Event.t) :
  Event.id e = Home.t_eventId t ->
  Home.favorited_by (Home.t_userId t) (Home.toggle_event t e)
  = negb (Home.t_isFavorite t).
Proof.
  intros H. unfold Home.toggle_event. rewrite H, String.eqb_refl.
  unfold Home.favorited_by. simpl. destruct (Home.t_isFavorite t); simpl.
  - apply includes_without_same.
  - apply includes_push_same.
Qed.

Lemma toggle_event_other (t : Home.Toggle) (e : Event.t) :
  Event.id e <> Home.t_eventId t -> Home.toggle_event t e = e.
Proof.
  intros H. unfold Home.toggle_event.
  apply String.eqb_neq in H. now rewrite H.
Qed.

(** No state of the page has an error notice. *)
Lemma browse_page_no_notice (s : Auth.Session) (st : Home.State) :
  ~ Spec.shows_error_notice (Home.render s st).
Proof.
  unfold Spec.shows_error_notice, Home.render. intros H.
  apply List.Exists_exists in H as (w & Hin & Hw).
  destruct Hin as [<- | Hin]; [discriminate |].
  destruct (Auth.isAuthenticated s).
  - repeat (apply in_app_or in Hin as [Hin | Hin]).
    + apply in_map_iff in Hin as ([v l] & <- & _). discriminate.
    + destruct (Home.loading st); [destruct Hin as [<- | []]; discriminate | destruct Hin].
    + destruct (_ && _); [destruct Hin as [<- | []]; discriminate | destruct Hin].
    + destruct (_ && _); [| destruct Hin].
      apply in_map_iff in Hin as (e & <- & _). discriminate.
  - destruct Hin as [<- | []]. discriminate.
Qed.

(** C1 (amended). A call of the favorite toggle by a signed-in user writes no
    local state before the remote patch settles. When the patch is
    acknowledged, the membership bit is flipped in the favorites index and in
    the [favorites] field of that event's entries of the mirror, other entries
    staying as they are. When the patch fails, the index and the mirror are
    as before the call, the failure is a line on the console and the page
    shown to the user is the same, with no notice on it. *)
Theorem toggle_flips_after_ack (s : Auth.Session) (st st0 : Home.State)
    (eventId : string) (t : Home.Toggle) :
  Home.toggleFavorite_begin s st eventId = Some (st0, t) ->
  st0 = st /\
  (let st' := Home.toggleFavorite_end t (Ok tt) st0 in
   Home.isFavorite st' eventId = negb (Home.isFavorite st eventId) /\
   Home.events st' = List.map (Home.toggle_event t) (Home.events st) /\
   (forall e, Event.id e = eventId ->
      Home.favorited_by (Home.t_userId t) (Home.toggle_event t e)
      = negb (Home.isFavorite st eventId)) /\
   (forall e, Event.id e <> eventId -> Home.toggle_event t e = e)) /\
  (forall msg,
     let st' := Home.toggleFavorite_end t (Err msg) st0 in
     Home.favorites st' = Home.favorites st /\
     Home.events st' = Home.events st /\
     Home.console st' = Home.console st ++ [("Error toggling favorite"%string, msg)] /\
     Home.render s st' = Home.render s st /\
     ~ Spec.shows_error_notice (Home.render s st')).
Proof.
  intros H. apply toggle_begin_inv in H as (-> & Hs & He & Hb).
  split; [reflexivity |]. split.
  - cbv zeta. rewrite <- He at 1. rewrite toggle_ok_index, Hb.
    split; [reflexivity |]. split; [reflexivity |]. split.
    + intros e Hid. rewrite <- Hb. apply toggle_event_member. congruence.
    + intros e Hid. apply toggle_event_other. congruence.
  - intros msg. cbv zeta. repeat split.
    apply browse_page_no_notice.
Qed.

End ToggleFacts.

Section ToggleExamples.

Import Firestore.

Example browsing_state :
  Home.events Sample.browsing = [Sample.P1; Sample.P2] /\
  Home.favorites Sample.browsing = [].
Proof. split; vm_compute; reflexivity. Qed.

(** C1, as stated, fails: while the patch for event [a] is in flight the bit
    read by the page is still the old one, and it is still the old one after
    the patch has failed. *)
Lemma optimistic_toggle_fails : ~ Spec.optimistic_toggle.
Proof.
  intros H.
  assert (Hb : Home.toggleFavorite_begin Sample.u1 Sample.browsing "a"
               = Some (Sample.browsing, Sample.toggle_a))
    by (vm_compute; reflexivity).
  destruct (H _ _ _ _ _ Hb) as [Hflip _].
  vm_compute in Hflip. discriminate.
Qed.

Lemma toggle_flips_after_ack_witness :
  Home.toggleFavorite_begin Sample.u1 Sample.browsing "a"
  = Some (Sample.browsing, Sample.toggle_a) /\
  Home.isFavorite
    (Home.toggleFavorite_end Sample.toggle_a (Ok tt) Sample.browsing) "a" = true /\
  Home.favorites
    (Home.toggleFavorite_end Sample.toggle_a (Err "offline") Sample.browsing) = [].
Proof.
  assert (Hb : Home.toggleFavorite_begin Sample.u1 Sample.browsing "a"
               = Some (Sample.browsing, Sample.toggle_a))
    by (vm_compute; reflexivity).
  split; [exact Hb |].
  destruct (toggle_flips_after_ack _ _ _ _ _ Hb) as (_ & (Hflip & _) & Hfail).
  split.
  - rewrite Hflip. vm_compute. reflexivity.
  - destruct (Hfail "offline"%string) as (Hfav & _). rewrite Hfav.
    vm_compute. reflexivity.
Defined.

End ToggleExamples.

(** ** The favorites index and the mirror agree *)

Section IndexFacts.

Import Firestore.

Lemma unique_by_id (l : list Event.t) (a b : Event.t) :
  NoDup (List.map Event.id l) -> In a l -> In b l -> Event.id a = Event.id b -> a = b.
Proof.
  induction l as [|x l IH]; simpl; intros Hnd Ha Hb Hid; [destruct Ha |].
  apply NoDup_cons in Hnd as [Hx Hnd]. rewrite list_elem_of_In in Hx.
  destruct Ha as [-> | Ha], Hb as [-> | Hb]; auto.
  - exfalso. apply Hx. rewrite Hid. now apply in_map.
  - exfalso. apply Hx. rewrite <- Hid. now apply in_map.
Qed.

(** The index computed by a load holds the id of a loaded event exactly when
    the user is in its [favorites]. *)
Lemma index_of_snapshot (u : string) (docs : list Event.t) (e : Event.t) :
  NoDup (List.map Event.id docs) -> In e docs ->
  Event.array_includes
    (List.map Event.id (List.filter (Home.favorited_by u) docs)) (Event.id e)
  = Home.favorited_by u e.
Proof.
  intros Hnd He. destruct (Home.favorited_by u e) eqn:Hf.
  - apply array_includes_In, in_map, filter_In. auto.
  - apply not_true_is_false. rewrite array_includes_In. intros Hin.
    apply in_map_iff in Hin as (e' & Hid & He').
    apply filter_In in He' as [He' Hf'].
    assert (e' = e) by (eapply unique_by_id; eauto). congruence.
Qed.

Lemma consistent_load_end (u : string) (b : Backend) (q : Query) (st : Home.State) :
  Spec.consistent u st ->
  Spec.consistent u (Home.loadEvents_end (Some u) (getDocs b q) st).
Proof.
  intros Hc. destruct b as [coll | msg]; simpl; [| exact Hc].
  intros e He. simpl in He. unfold Home.isFavorite. simpl.
  apply index_of_snapshot; [apply run_query_NoDup | exact He].
Qed.

Lemma consistent_toggle_end (u : string) (t : Home.Toggle) (resp : Result unit)
    (st : Home.State) :
  Home.t_userId t = u ->
  Spec.consistent u st ->
  Spec.consistent u (Home.toggleFavorite_end t resp st).
Proof.
  intros Hu Hc. destruct resp as [[] | msg]; [| exact Hc].
  intros e' He'. simpl in He'. apply in_map_iff in He' as (e & <- & He).
  rewrite toggle_event_id.
  destruct (String.eqb_spec (Event.id e) (Home.t_eventId t)) as [Heq | Hne].
  - rewrite Heq, toggle_ok_index, <- Hu. symmetry. now apply toggle_event_member.
  - rewrite toggle_ok_index_other, toggle_event_other by assumption. now apply Hc.
Qed.

Lemma index_inv_step (u : string) (c c' : Home.Config) :
  Spec.index_inv u c -> Home.step (Some u) c c' -> Spec.index_inv u c'.
Proof.
  intros [Hc Hp] Hstep. inversion Hstep; subst; simpl in *.
  - split; assumption.
  - split; [assumption |]. apply Forall_app. split; [assumption | repeat constructor].
  - apply Forall_app in Hp as [Hp1 Hp2]. apply Forall_cons in Hp2 as [_ Hp2].
    split; [now apply consistent_load_end | apply Forall_app; split; assumption].
  - injection H as <- <-. split; [assumption |].
    apply Forall_app. split; [assumption | repeat constructor].
  - apply Forall_app in Hp as [Hp1 Hp2]. apply Forall_cons in Hp2 as [Hu Hp2].
    split; [now apply consistent_toggle_end | apply Forall_app; split; assumption].
Qed.

(** The agreement holds in every configuration the page can reach, whatever
    the order in which loads and toggles settle. *)
Lemma consistent_reachable (u : string) (c : Home.Config) :
  Home.reachable (Some u) c -> Spec.consistent u (Home.state c).
Proof.
  intros H. enough (Spec.index_inv u c) as [Hc _] by exact Hc.
  induction H as [| c c' _ IH Hstep].
  - split; [intros e [] | constructor].
  - eapply index_inv_step; eassumption.
Qed.

Lemma toggle_acknowledged (u : string) (b : Backend) (st : Home.State)
    (eventId : string) :
  Spec.acknowledges b eventId ->
  fst (Home.toggleFavorite (Some u) b st eventId)
  = Home.toggleFavorite_end
      {| Home.t_eventId := eventId; Home.t_userId := u;
         Home.t_isFavorite := Home.isFavorite st eventId |} (Ok tt) st.
Proof.
  intros (coll & d & -> & Hd). unfold Home.toggleFavorite. simpl.
  rewrite Hd. unfold Home.toggle_write. simpl.
  destruct (Home.isFavorite st eventId); reflexivity.
Qed.

Lemma favorites_or_empty_set (l : list string) (e : Event.t) :
  Event.favorites_or_empty (Event.set_favorites l e) = l.
Proof. reflexivity. Qed.

Lemma favorited_by_In (u : string) (e : Event.t) :
  Home.favorited_by u e = true <-> In u (Event.favorites_or_empty e).
Proof.
  unfold Home.favorited_by, Event.favorites_or_empty.
  destruct (Event.favorites (Event.data e)).
  - apply array_includes_In.
  - split; [discriminate | intros []].
Qed.

(** Taking a user out of a set it is in and putting it back gives the same
    set; putting in a user that is not there and taking it out gives the same
    array. *)
Lemma card_remove_add (l : list string) (u : string) :
  In u l ->
  size (list_to_set (Event.array_without l u ++ [u]) : gset string)
  = size (list_to_set l : gset string).
Proof.
  intros Hin. f_equal. apply set_eq. intros x.
  rewrite !elem_of_list_to_set, !list_elem_of_In, in_app_iff, array_without_In.
  simpl. destruct (decide (x = u)) as [-> | Hne]; [tauto |].
  split; [intros [[? _] | [? | []]]; [assumption | congruence] | auto].
Qed.

Lemma add_remove_same (l : list string) (u : string) :
  ~ In u l -> Event.array_without (l ++ [u]) u = l.
Proof. intros H. rewrite array_without_push. now apply array_without_absent. Qed.

(** Two acknowledged toggles in a row on an entry whose bit agrees with the
    index. *)
Lemma toggle_twice_entry (u eventId : string) (b : bool) (e : Event.t) :
  (Event.id e = eventId -> b = Home.favorited_by u e) ->
  let t1 := {| Home.t_eventId := eventId; Home.t_userId := u; Home.t_isFavorite := b |} in
  let t2 := {| Home.t_eventId := eventId; Home.t_userId := u;
               Home.t_isFavorite := negb b |} in
  let e2 := Home.toggle_event t2 (Home.toggle_event t1 e) in
  Event.id e2 = Event.id e /\ Spec.favorites_card e2 = Spec.favorites_card e.
Proof.
  intros Hb t1 t2 e2. subst e2. split; [now rewrite !toggle_event_id |].
  destruct (String.eqb_spec (Event.id e) eventId) as [Heq | Hne].
  - specialize (Hb Heq). unfold Home.toggle_event at 2. simpl.
    apply String.eqb_eq in Heq. rewrite Heq.
    unfold Home.toggle_event. simpl. rewrite Heq.
    unfold Spec.favorites_card. rewrite !favorites_or_empty_set.
    destruct b; simpl.
    + apply card_remove_add. now apply favorited_by_In.
    + rewrite add_remove_same; [reflexivity |].
      rewrite <- favorited_by_In. congruence.
  - rewrite (toggle_event_other t1) by assumption.
    rewrite (toggle_event_other t2) by assumption. reflexivity.
Qed.

(** With no user twice in the array, the length of the array is kept too. *)
Lemma toggle_twice_entry_length (u eventId : string) (b : bool) (e : Event.t) :
  (Event.id e = eventId -> b = Home.favorited_by u e) ->
  NoDup (Event.favorites_or_empty e) ->
  let t1 := {| Home.t_eventId := eventId; Home.t_userId := u; Home.t_isFavorite := b |} in
  let t2 := {| Home.t_eventId := eventId; Home.t_userId := u;
               Home.t_isFavorite := negb b |} in
  let e2 := Home.toggle_event t2 (Home.toggle_event t1 e) in
  List.length (Event.favorites_or_empty e2) = List.length (Event.favorites_or_empty e).
Proof.
  intros Hb Hnd t1 t2 e2.
  assert (Hnd2 : NoDup (Event.favorites_or_empty e2)).
  { subst e2. destruct (String.eqb_spec (Event.id e) eventId) as [Heq | Hne].
    - specialize (Hb Heq). unfold Home.toggle_event at 2. simpl.
      apply String.eqb_eq in Heq. rewrite Heq.
      unfold Home.toggle_event. simpl. rewrite Heq.
      rewrite !favorites_or_empty_set. destruct b; simpl.
      + apply NoDup_app. split; [| split].
        * unfold Event.array_without. apply NoDup_ListNoDup, List.NoDup_filter.
          now apply NoDup_ListNoDup.
        * intros x Hx Hx'. apply list_elem_of_In in Hx, Hx'.
          apply array_without_In in Hx as [_ Hx]. destruct Hx' as [<- | []].
          congruence.
        * apply NoDup_singleton.
      + rewrite add_remove_same; [exact Hnd |].
        rewrite <- favorited_by_In. congruence.
    - rewrite (toggle_event_other t1) by assumption.
      rewrite (toggle_event_other t2) by assumption. exact Hnd. }
  pose proof (proj2 (toggle_twice_entry u eventId b e Hb)) as Hcard.
  unfold Spec.favorites_card in Hcard. fold t1 t2 e2 in Hcard.
  rewrite !size_list_to_set in Hcard by assumption. exact Hcard.
Qed.

Lemma toggle_twice_consistent (u eventId : string) (st : Home.State)
    (b1 b2 : Backend) :
  Spec.consistent u st ->
  Spec.acknowledges b1 eventId -> Spec.acknowledges b2 eventId ->
  let st1 := fst (Home.toggleFavorite (Some u) b1 st eventId) in
  let st2 := fst (Home.toggleFavorite (Some u) b2 st1 eventId) in
  Home.isFavorite st2 eventId = Home.isFavorite st eventId /\
  List.map Event.id (Home.events st2) = List.map Event.id (Home.events st) /\
  List.map Spec.favorites_card (Home.events st2)
  = List.map Spec.favorites_card (Home.events st) /\
  (Forall (fun e => NoDup (Event.favorites_or_empty e)) (Home.events st) ->
   List.map (fun e => List.length (Event.favorites_or_empty e)) (Home.events st2)
   = List.map (fun e => List.length (Event.favorites_or_empty e)) (Home.events st)).
Proof.
  intros Hc H1 H2 st1 st2. subst st1 st2.
  rewrite (toggle_acknowledged u b1 st eventId H1).
  rewrite (toggle_acknowledged u b2 _ eventId H2).
  set (t1 := {| Home.t_eventId := eventId; Home.t_userId := u;
                Home.t_isFavorite := Home.isFavorite st eventId |}).
  assert (Hb1 : Home.isFavorite (Home.toggleFavorite_end t1 (Ok tt) st) eventId
                = negb (Home.isFavorite st eventId))
    by apply (toggle_ok_index t1 st).
  rewrite Hb1.
  set (t2 := {| Home.t_eventId := eventId; Home.t_userId := u;
                Home.t_isFavorite := negb (Home.isFavorite st eventId) |}).
  split.
  - change eventId with (Home.t_eventId t2) at 2.
    rewrite toggle_ok_index. simpl. apply negb_involutive.
  - simpl. rewrite !List.map_map.
    split; [| split].
    + apply map_ext_in; intros e He.
      apply (toggle_twice_entry u eventId (Home.isFavorite st eventId) e).
      intros <-. now apply Hc.
    + apply map_ext_in; intros e He.
      apply (toggle_twice_entry u eventId (Home.isFavorite st eventId) e).
      intros <-. now apply Hc.
    + intros Hnd. apply map_ext_in; intros e He.
      apply (toggle_twice_entry_length u eventId (Home.isFavorite st eventId) e).
      * intros <-. now apply Hc.
      * rewrite Forall_forall in Hnd. apply Hnd. now apply list_elem_of_In.
Qed.

(** C4. In any state the page can reach for a signed-in user, two toggles of
    the same event in a row, both patches acknowledged, give back the
    membership bit the user had, and leave every entry of the mirror with the
    same id and the same number of users in its [favorites] set (and, where
    no user is listed twice, an array of the same length). *)
Theorem toggle_twice_restores (u eventId : string) (c : Home.Config)
    (b1 b2 : Backend) :
  Home.reachable (Some u) c ->
  Spec.acknowledges b1 eventId -> Spec.acknowledges b2 eventId ->
  let st := Home.state c in
  let st1 := fst (Home.toggleFavorite (Some u) b1 st eventId) in
  let st2 := fst (Home.toggleFavorite (Some u) b2 st1 eventId) in
  Home.isFavorite st2 eventId = Home.isFavorite st eventId /\
  List.map Event.id (Home.events st2) = List.map Event.id (Home.events st) /\
  List.map Spec.favorites_card (Home.events st2)
  = List.map Spec.favorites_card (Home.events st) /\
  (Forall (fun e => NoDup (Event.favorites_or_empty e)) (Home.events st) ->
   List.map (fun e => List.length (Event.favorites_or_empty e)) (Home.events st2)
   = List.map (fun e => List.length (Event.favorites_or_empty e)) (Home.events st)).
Proof.
  intros Hr. apply toggle_twice_consistent. now apply consistent_reachable.
Qed.

End IndexFacts.

Section ReachableExamples.

Import Firestore.

Lemma loaded_reachable : Home.reachable Sample.u1 Sample.loaded.
Proof.
  eapply Home.reachable_step.
  - eapply Home.reachable_step; [apply Home.reachable_init |].
    apply Home.step_load_begin. reflexivity.
  - exact (Home.step_load_end Sample.u1 (Home.setLoading true Home.init) [] []
             (Home.compose Home.init) (Serving Sample.catalog_public)).
Qed.

Lemma public_catalog_acknowledges :
  Spec.acknowledges (Serving Sample.catalog_public) "a".
Proof.
  exists Sample.catalog_public, (Event.data Sample.P1).
  split; [reflexivity | vm_compute; reflexivity].
Qed.

Lemma browse_never_private_witness :
  Home.reachable Sample.u1 Sample.loaded /\
  Spec.all_public (Home.events (Home.state Sample.loaded)).
Proof.
  split; [exact loaded_reachable |].
  exact (proj1 (proj2 browse_never_private) Sample.u1 Sample.loaded loaded_reachable).
Defined.

Lemma toggle_twice_restores_witness :
  Home.reachable Sample.u1 Sample.loaded /\
  Spec.acknowledges (Serving Sample.catalog_public) "a" /\
  Home.isFavorite
    (fst (Home.toggleFavorite Sample.u1 (Serving Sample.catalog_public)
            (fst (Home.toggleFavorite Sample.u1 (Serving Sample.catalog_public)
                    (Home.state Sample.loaded) "a")) "a")) "a"
  = Home.isFavorite (Home.state Sample.loaded) "a".
Proof.
  split; [exact loaded_reachable |].
  split; [exact public_catalog_acknowledges |].
  exact (proj1 (toggle_twice_restores "u1" "a" Sample.loaded
                  (Serving Sample.catalog_public) (Serving Sample.catalog_public)
                  loaded_reachable public_catalog_acknowledges
                  public_catalog_acknowledges)).
Defined.

Example toggle_twice_on_a :
  let st1 := fst (Home.toggleFavorite Sample.u1 (Serving Sample.catalog_public)
                    Sample.browsing "a") in
  let st2 := fst (Home.toggleFavorite Sample.u1 (Serving Sample.catalog_public)
                    st1 "a") in
  Home.favorites st1 = ["a"%string] /\
  List.map Event.favorites_or_empty (Home.events st1) = [["u1"%string]; []] /\
  Home.favorites st2 = [] /\
  List.map Event.favorites_or_empty (Home.events st2) = [[]; []].
Proof. vm_compute. repeat split. Qed.

End ReachableExamples.

(** ** Owner view: load and search *)

Section SearchFacts.

Import Firestore.
Import EventManagement.






End SearchFacts.

Section SearchExamples.

Import Firestore.
Import EventManagement.

Example managing_state :
  events Sample.managing = [Sample.P2; Sample.P1] /\ error Sample.managing = None.
Proof. split; vm_compute; reflexivity. Qed.



End SearchExamples.

(** ** Failed loads *)

Section LoadFailure.

Import Firestore.

Lemma management_page_shows_error (st : EventManagement.State) (text : string) :
  EventManagement.error st = Some text ->
  Spec.shows_error_notice (EventManagement.render st).
Proof.
  intros H. unfold Spec.shows_error_notice, EventManagement.render.
  apply List.Exists_exists. exists (View.Notice View.error text).
  split; [| reflexivity].
  rewrite H. rewrite !in_app_iff. do 5 right. left. now left.
Qed.

(** C8 (amended). A load that fails leaves the events of either view as they
    were. The owner view sets the error message "Greška pri učitavanju
    događaja" and its page shows it; the public-browse view writes a line to
    the console and its page shows no notice. *)
Theorem load_failure_keeps_events :
  (forall env msg st,
      let st' := EventManagement.loadEvents env (Failing msg) st in
      EventManagement.events st' = EventManagement.events st /\
      EventManagement.error st' = Some "Greška pri učitavanju događaja"%string /\
      EventManagement.loading st' = false /\
      Spec.shows_error_notice (EventManagement.render st')) /\
  (forall s msg st,
      let st' := Home.loadEvents s (Failing msg) st in
      Home.events st' = Home.events st /\
      Home.favorites st' = Home.favorites st /\
      Home.loading st' = false /\
      Home.console st' = Home.console st ++ [("Event load failed"%string, msg)] /\
      ~ Spec.shows_error_notice (Home.render s st')).
Proof.
  split.
  - intros env msg st st'.
    assert (He : EventManagement.error st' = Some "Greška pri učitavanju događaja"%string).
    { subst st'. unfold EventManagement.loadEvents, EventManagement.loadEvents_begin,
        EventManagement.request, EventManagement.answer.
      destruct (Auth.currentUid (session env)); reflexivity. }
    split; [| split; [exact He | split]].
    + subst st'. unfold EventManagement.loadEvents, EventManagement.loadEvents_begin,
        EventManagement.request, EventManagement.answer.
      destruct (Auth.currentUid (session env)); reflexivity.
    + subst st'. unfold EventManagement.loadEvents, EventManagement.loadEvents_begin,
        EventManagement.request, EventManagement.answer.
      destruct (Auth.currentUid (session env)); reflexivity.
    + now apply management_page_shows_error with (text := "Greška pri učitavanju događaja"%string).
  - intros s msg st st'. repeat split. apply browse_page_no_notice.
Qed.

(** C8, as stated, fails in the public-browse view: after a failed load the
    page of a signed-in user shows no notice. *)
Lemma load_failure_not_noticed : ~ Spec.load_failure_noticed.
Proof.
  intros [_ H].
  destruct (H Sample.u1 "unavailable"%string Sample.browsing eq_refl) as [_ Hn].
  exact (browse_page_no_notice _ _ Hn).
Qed.

End LoadFailure.

(** ** Order of the results *)

Section OrderFacts.

Import Firestore.

Lemma owner_query_order (userId : string) (st : EventManagement.State) :
  q_order (EventManagement.compose userId st) = [("created"%string, desc)].
Proof.
  unfold EventManagement.compose. destruct (JsString.truthy _); reflexivity.
Qed.

Lemma owner_query_filters (userId : string) (st : EventManagement.State) :
  In ("userId"%string, VString userId) (q_filters (EventManagement.compose userId st)).
Proof.
  unfold EventManagement.compose. destruct (JsString.truthy _); simpl; auto.
Qed.

Lemma ordered_desc_snoc (l : list Event.t) (x : Event.t) :
  Spec.ordered_desc (l ++ [x]) <->
  Spec.ordered_desc l /\
  Forall (fun a => Event.created (Event.data x) <= Event.created (Event.data a)) l.
Proof.
  unfold Spec.ordered_desc. induction l as [|y l IH]; simpl.
  - split; [intros _; split; constructor | intros _; repeat constructor].
  - split.
    + intros H. apply StronglySorted_inv in H as [Hs Hf].
      apply IH in Hs as [Hs Hx]. apply Forall_app in Hf as [Hf1 Hf2].
      split; [constructor; assumption |].
      constructor; [| assumption]. now apply Forall_inv in Hf2.
    + intros [Hs Hf]. apply StronglySorted_inv in Hs as [Hs Hy].
      apply Forall_cons in Hf as [Hxy Hf].
      constructor; [apply IH; auto |].
      apply Forall_app. split; [assumption | repeat constructor; assumption].
Qed.

(** C3 (amended). The owner's query, with or without a category filter,
    carries the clause [orderBy("created", "desc")] and its results come
    newest first. The public-browse query carries no order clause: its results
    are the matching documents in the store's own order. *)
Theorem owner_queries_ordered :
  (forall userId st,
      q_order (EventManagement.compose userId st) = [("created"%string, desc)]) /\
  (forall coll userId st,
      Spec.ordered_desc (run_query coll (EventManagement.compose userId st))) /\
  (forall st, q_order (Home.compose st) = []) /\
  (forall coll st,
      run_query coll (Home.compose st)
      = List.filter (fun e => satisfies (Home.compose st) (Event.data e))
                    (docs_of coll)).
Proof.
  split; [exact owner_query_order |].
  split; [intros; apply run_query_created_desc, owner_query_order |].
  split; [exact browse_query_unordered |].
  intros coll st. unfold run_query. apply sort_docs_no_order.
  intros a b. now rewrite browse_query_unordered.
Qed.

(** C3, as stated, fails for public browse: of two public events the older
    one comes first. *)
Lemma browse_results_unordered : ~ Spec.every_query_ordered.
Proof.
  intros H. destruct (H Sample.catalog_public) as [_ Hb].
  specialize (Hb Home.init).
  assert (E : run_query Sample.catalog_public (Home.compose Home.init)
              = [Sample.P1; Sample.P2]) by (vm_compute; reflexivity).
  rewrite E in Hb. apply StronglySorted_inv in Hb as [_ Hf].
  apply Forall_inv in Hf. vm_compute in Hf. apply Hf. reflexivity.
Qed.

End OrderFacts.

(** ** The form: create and update *)

Section SubmitFacts.

Import Firestore.
Import EventManagement.

Lemma create_succeeded (env : Env) (now : Z) (fresh : string) (b : Backend)
    (st st' : State) (b' : Backend) :
  selectedEvent st = None ->
  handleSubmit env now fresh b st = (st', b') ->
  success st' = Some "Događaj dodan"%string ->
  exists userId,
    session env = Some userId /\
    st' = create_end (eventData env userId now (form st)) (Ok fresh)
            (setSuccess None (setError None st)).
Proof.
  intros Hsel H Hok. unfold handleSubmit in H.
  destruct (session env) as [userId|]; simpl in H.
  - rewrite Hsel in H. exists userId. split; [reflexivity |].
    destruct (addDoc b fresh _) as [resp b1] eqn:Ea. injection H as <- <-.
    unfold addDoc in Ea. destruct b as [coll | msg].
    + destruct (negb _); [injection Ea as <- <-; simpl in Hok; discriminate |].
      destruct (bool_decide _); injection Ea as <- <-; [reflexivity |].
      simpl in Hok. discriminate.
    + injection Ea as <- <-. simpl in Hok. discriminate.
  - injection H as <- <-. discriminate.
Qed.

(** C10 (amended). After a successful create the new event, with the id the
    store gave it and the submitted fields, is the last entry of the mirror,
    whatever its place in the order. A mirror that holds an event created
    strictly before the new one is then not ordered by [created] descending;
    an ordered mirror none of whose events is older than the new one (an
    empty mirror among them) stays ordered. *)
Theorem create_appends_last (env : Env) (now : Z) (fresh : string) (b : Backend)
    (st st' : State) (b' : Backend) :
  selectedEvent st = None ->
  handleSubmit env now fresh b st = (st', b') ->
  success st' = Some "Događaj dodan"%string ->
  exists userId,
    session env = Some userId /\
    events st'
    = events st ++ [Event.mk fresh (Event.of_payload (eventData env userId now (form st)))] /\
    ((exists e, In e (events st) /\ Event.created (Event.data e) < now) ->
     ~ Spec.ordered_desc (events st')) /\
    (Spec.ordered_desc (events st) ->
     (forall e, In e (events st) -> now <= Event.created (Event.data e)) ->
     Spec.ordered_desc (events st')).
Proof.
  intros Hsel H Hok.
  destruct (create_succeeded _ _ _ _ _ _ _ Hsel H Hok) as (userId & Hs & ->).
  exists userId. split; [exact Hs |]. split; [reflexivity |].
  simpl. split.
  - intros (e & He & Hlt) Hord. apply ordered_desc_snoc in Hord as [_ Hf].
    rewrite Forall_forall in Hf. apply list_elem_of_In in He.
    specialize (Hf e He). simpl in Hf. lia.
  - intros Hord Hall. apply ordered_desc_snoc. split; [exact Hord |].
    apply Forall_forall. intros e He. apply list_elem_of_In in He. simpl. auto.
Qed.

End SubmitFacts.

Section SubmitExamples.

Import Firestore.
Import EventManagement.

(** C10, as stated, fails on an empty mirror: it is ordered before the
    create, and with its single new entry it is ordered after it. *)
Lemma create_keeps_empty_mirror_ordered : ~ Spec.create_breaks_order.
Proof.
  intros H.
  set (r := handleSubmit Sample.env 5000 "n1" (Serving ∅) Sample.drafting).
  assert (Hok : success (fst r) = Some "Događaj dodan"%string)
    by (vm_compute; reflexivity).
  assert (Hev : events (fst r)
                = [] ++ [Event.mk "n1"
                           (Event.of_payload
                              (eventData Sample.env "u1" 5000 (form Sample.drafting)))])
    by (vm_compute; reflexivity).
  apply (H Sample.env 5000 "n1"%string (Serving ∅) Sample.drafting (fst r) (snd r)
           eq_refl (surjective_pairing r) Hok).
  - constructor.
  - rewrite Hev. apply ordered_desc_snoc. split; constructor.
Qed.

Lemma create_appends_last_witness :
  selectedEvent Sample.drafting_more = None /\
  success (fst (handleSubmit Sample.env 5000 "n1" (Serving Sample.catalog_public)
                  Sample.drafting_more))
  = Some "Događaj dodan"%string /\
  ~ Spec.ordered_desc
      (events (fst (handleSubmit Sample.env 5000 "n1" (Serving Sample.catalog_public)
                      Sample.drafting_more))).
Proof.
  set (r := handleSubmit Sample.env 5000 "n1" (Serving Sample.catalog_public)
              Sample.drafting_more).
  assert (Hsel : selectedEvent Sample.drafting_more = None) by reflexivity.
  assert (Hok : success (fst r) = Some "Događaj dodan"%string)
    by (vm_compute; reflexivity).
  split; [exact Hsel |]. split; [exact Hok |].
  destruct (create_appends_last Sample.env 5000 "n1"%string
              (Serving Sample.catalog_public) Sample.drafting_more (fst r) (snd r)
              Hsel (surjective_pairing r) Hok)
    as (userId & _ & _ & Hbreak & _).
  apply Hbreak. exists Sample.P1. split.
  - vm_compute. right. left. reflexivity.
  - vm_compute. reflexivity.
Defined.

(** What a successful update writes: the store merges the payload into the
    document, the mirror merges it into the entries with the selected id;
    the payload carries the submission instant as [created] and the session
    user as [userId]. *)
Lemma update_writes_payload (env : Env) (now : Z) (fresh : string)
    (coll : gmap string Event.Data) (st : State) (sel : Event.t) (d : Event.Data)
    (userId : string) :
  session env = Some userId ->
  selectedEvent st = Some sel ->
  coll !! Event.id sel = Some d ->
  storable (parseDate env (f_datetime (form st))) = true ->
  let p := eventData env userId now (form st) in
  handleSubmit env now fresh (Serving coll) st
  = (update_end sel p (Ok tt) (setSuccess None (setError None st)),
     Serving (<[Event.id sel := Event.stored d p]> coll)) /\
  Event.created (Event.stored d p) = now /\
  Event.userId (Event.stored d p) = userId /\
  (forall ev, Event.created (Event.data (merge ev p)) = now) /\
  (forall ev, Event.userId (Event.data (merge ev p)) = userId).
Proof.
  intros Hs Hsel Hd Hst p. split; [| repeat split].
  unfold handleSubmit. rewrite Hs. simpl. rewrite Hsel. simpl.
  rewrite Hd. simpl. fold p. unfold p at 1. simpl. rewrite Hst. reflexivity.
Qed.

(** C2, at a failing input. User [u1] saves an edit of event [a], created at
    instant 1000, at instant 5000: the update succeeds, [userId] stays [u1],
    and [created] of the stored document and of the mirror entry is now 5000. *)
Theorem update_overwrites_created :
  let r := handleSubmit Sample.env 5000 "n1" (Serving Sample.catalog_public)
             Sample.editing in
  success (fst r) = Some "Događaj ažuriran"%string /\
  List.map (fun e => (Event.id e, Event.created (Event.data e), Event.userId (Event.data e)))
           (events Sample.editing)
  = [("b", 2000, "u1"); ("a", 1000, "u1")]%string /\
  List.map (fun e => (Event.id e, Event.created (Event.data e), Event.userId (Event.data e)))
           (events (fst r))
  = [("b", 2000, "u1"); ("a", 5000, "u1")]%string /\
  Sample.catalog_public !! "a"%string = Some (Event.data Sample.P1) /\
  match snd r with
  | Serving coll =>
      (fun d => (Event.created d, Event.userId d)) <$> coll !! "a"%string
      = Some (5000, "u1"%string)
  | Failing _ => False
  end.
Proof. vm_compute. repeat split. Qed.

End SubmitExamples.

(** ** The form binder and dates *)

Section DateFacts.

Import EventManagement.


Lemma to_date_wrapper (ts : Timestamp.t) :
  to_date (DTTimestamp ts) = to_date (DTDate (Timestamp.toDate ts)).
Proof. reflexivity. Qed.



(** The scenario of section 8: the event is at 2025-03-01T09:00Z; the field
    shows the wall clock of the session, east or west of UTC, for either
    shape of the value. *)
Example datetime_field_wall_clock :
  let east := Sample.env in
  let west := {| session := Sample.u1; timezoneOffset := fun _ => 300;
                 parseDate := parseDate Sample.env;
                 toLocaleString := toLocaleString Sample.env |} in
  datetime_field east (DTDate (JsDate.Valid 1740819600000)) = Ok "2025-03-01T10:00"%string /\
  datetime_field east (DTTimestamp (Timestamp.mk 1740819600 0)) = Ok "2025-03-01T10:00"%string /\
  datetime_field west (DTDate (JsDate.Valid 1740819600000)) = Ok "2025-03-01T04:00"%string /\
  datetime_field west (DTTimestamp (Timestamp.mk 1740819600 0)) = Ok "2025-03-01T04:00"%string /\
  datetime_field east (DTDate JsDate.Invalid) = Err "RangeError: Invalid time value"%string.
Proof. vm_compute. repeat split. Qed.

End DateFacts.

(** ** What a load shows *)

Section LoadFacts.

Import Firestore.

Lemma truthy_false_iff (s : string) : JsString.truthy s = false <-> s = ""%string.
Proof. destruct s; simpl; split; congruence. Qed.

Lemma satisfies_owner (u : string) (st : EventManagement.State) (d : Event.Data) :
  satisfies (EventManagement.compose u st) d = true <->
  Event.userId d = u /\
  (EventManagement.filterCategory st = ""%string \/
   Event.category d = EventManagement.filterCategory st).
Proof.
  unfold EventManagement.compose.
  destruct (JsString.truthy (EventManagement.filterCategory st)) eqn:E.
  - unfold satisfies. cbn [query fold_left add_constraint collection_events
                           q_filters q_order app forallb].
    change (get_field "userId" d) with (Some (VString (Event.userId d))).
    change (get_field "category" d) with (Some (VString (Event.category d))).
    change (get_field "created" d) with (Some (VTime (Event.created d))).
    rewrite !andb_true_r, andb_true_iff, !bool_decide_eq_true.
    split.
    + intros [H1 H2]. split; [congruence | right; congruence].
    + intros [H1 [H2 | H2]].
      * rewrite H2 in E. discriminate.
      * split; congruence.
  - apply truthy_false_iff in E. unfold satisfies.
    cbn [query fold_left add_constraint collection_events
         q_filters q_order app forallb].
    change (get_field "userId" d) with (Some (VString (Event.userId d))).
    change (get_field "created" d) with (Some (VTime (Event.created d))).
    rewrite !andb_true_r, bool_decide_eq_true.
    split.
    + intros H1. split; [congruence | auto].
    + intros [H1 _]. congruence.
Qed.

Lemma satisfies_browse (st : Home.State) (d : Event.Data) :
  satisfies (Home.compose st) d = true <->
  Event.isPrivate d = false /\
  (Home.selectedCategory st = "All"%string \/
   Event.category d = Home.selectedCategory st).
Proof.
  unfold Home.compose.
  destruct (String.eqb_spec (Home.selectedCategory st) "All") as [E | E].
  - unfold satisfies. cbn [negb query fold_left add_constraint collection_events
                           q_filters q_order app forallb].
    change (get_field "isPrivate" d) with (Some (VBool (Event.isPrivate d))).
    rewrite !andb_true_r, bool_decide_eq_true.
    split; [intros H; split; [congruence | auto] | intros [H _]; congruence].
  - unfold satisfies. cbn [negb query fold_left add_constraint collection_events
                           q_filters q_order app forallb].
    change (get_field "isPrivate" d) with (Some (VBool (Event.isPrivate d))).
    change (get_field "category" d) with (Some (VString (Event.category d))).
    rewrite !andb_true_r, andb_true_iff, !bool_decide_eq_true.
    split.
    + intros [H1 H2]. split; [congruence | right; congruence].
    + intros [H1 [H2 | H2]]; [contradiction | split; congruence].
Qed.

Lemma run_query_iff (coll : gmap string Event.Data) (q : Query) (e : Event.t) :
  In e (run_query coll q) <->
  coll !! Event.id e = Some (Event.data e) /\ satisfies q (Event.data e) = true.
Proof.
  split; [apply run_query_sound | intros [H1 H2]; now apply run_query_complete].
Qed.

(** X1. With a session and a serving store, [loadEvents] of the management
    page replaces [events] by exactly the documents of the collection whose
    [userId] is the session user and, when a category filter is set, whose
    [category] is the filter: each once, newest first; the error notice is
    not touched and the spinner is off. *)
Theorem owner_load_shows_own_events (env : Env) (coll : gmap string Event.Data)
    (st : EventManagement.State) (u : string) :
  session env = Some u ->
  let st' := EventManagement.loadEvents env (Serving coll) st in
  (forall e, In e (EventManagement.events st') <->
             coll !! Event.id e = Some (Event.data e) /\
             Event.userId (Event.data e) = u /\
             (EventManagement.filterCategory st = ""%string \/
              Event.category (Event.data e) = EventManagement.filterCategory st)) /\
  NoDup (List.map Event.id (EventManagement.events st')) /\
  Spec.ordered_desc (EventManagement.events st') /\
  EventManagement.error st' = EventManagement.error st /\
  EventManagement.loading st' = false.
Proof.
  intros Hs st'.
  assert (E : EventManagement.events st'
              = run_query coll (EventManagement.compose u st)).
  { subst st'. unfold EventManagement.loadEvents, EventManagement.loadEvents_begin,
      EventManagement.request, EventManagement.answer. rewrite Hs. reflexivity. }
  split; [| split; [| split; [| split]]].
  - intros e. rewrite E, run_query_iff, satisfies_owner. reflexivity.
  - rewrite E. apply run_query_NoDup.
  - rewrite E. apply run_query_created_desc, owner_query_order.
  - subst st'. unfold EventManagement.loadEvents, EventManagement.loadEvents_begin,
      EventManagement.request, EventManagement.answer. rewrite Hs. reflexivity.
  - subst st'. unfold EventManagement.loadEvents, EventManagement.loadEvents_begin,
      EventManagement.request, EventManagement.answer. rewrite Hs. reflexivity.
Qed.

(** X2. With a serving store, [loadEvents] of the browse page replaces
    [events] by exactly the documents that are not private and, unless "All"
    is selected, whose [category] is the selected one, each once; for a
    signed-in user the favorites index becomes the ids of the loaded events
    that list the user in [favorites], and for an anonymous visitor it is
    left as it was. *)
Theorem browse_load_shows_public_events (s : Auth.Session)
    (coll : gmap string Event.Data) (st : Home.State) :
  let st' := Home.loadEvents s (Serving coll) st in
  (forall e, In e (Home.events st') <->
             coll !! Event.id e = Some (Event.data e) /\
             Event.isPrivate (Event.data e) = false /\
             (Home.selectedCategory st = "All"%string \/
              Event.category (Event.data e) = Home.selectedCategory st)) /\
  NoDup (List.map Event.id (Home.events st')) /\
  Home.favorites st'
  = match s with
    | Some u => List.map Event.id (List.filter (Home.favorited_by u) (Home.events st'))
    | None => Home.favorites st
    end /\
  Home.console st' = Home.console st /\
  Home.loading st' = false.
Proof.
  intros st'.
  assert (E : Home.events st' = run_query coll (Home.compose st))
    by (subst st'; destruct s; reflexivity).
  split; [| split; [| split; [| split]]].
  - intros e. rewrite E, run_query_iff, satisfies_browse. reflexivity.
  - rewrite E. apply run_query_NoDup.
  - rewrite E. subst st'. destruct s; reflexivity.
  - subst st'. destruct s; reflexivity.
  - subst st'. destruct s; reflexivity.
Qed.

(** X3. The spinner is off after every run of [loadEvents] and of
    [searchEvents], whatever the store answers and whether or not somebody is
    signed in: success, failure and the short-term fallback all end in
    [setLoading(false)]. *)
Theorem loading_cleared_on_every_exit :
  (forall env b st, EventManagement.loading (EventManagement.loadEvents env b st) = false) /\
  (forall env b st, EventManagement.loading (EventManagement.searchEvents env b st) = false) /\
  (forall s b st, Home.loading (Home.loadEvents s b st) = false).
Proof.
  assert (Hl : forall env b st,
             EventManagement.loading (EventManagement.loadEvents env b st) = false).
  { intros env b st. unfold EventManagement.loadEvents, EventManagement.loadEvents_begin,
      EventManagement.request, EventManagement.answer.
    destruct (Auth.currentUid (session env)); [destruct b |]; reflexivity. }
  split; [exact Hl |]. split.
  - intros env b st. unfold EventManagement.searchEvents.
    destruct (EventManagement.too_short _); [apply Hl |].
    unfold EventManagement.request, EventManagement.answer.
    destruct (Auth.currentUid (session env)); [destruct b |]; reflexivity.
  - intros s b st. destruct b, s; reflexivity.
Qed.

End LoadFacts.

Section LoadExamples.

Import Firestore.

Lemma owner_load_shows_own_events_witness :
  session Sample.env = Some "u1"%string /\
  Spec.ordered_desc
    (EventManagement.events
       (EventManagement.loadEvents Sample.env (Serving Sample.catalog_AB)
          EventManagement.init)) /\
  (In Sample.A
      (EventManagement.events
         (EventManagement.loadEvents Sample.env (Serving Sample.catalog_AB)
            EventManagement.init)) <->
   Sample.catalog_AB !! Event.id Sample.A = Some (Event.data Sample.A) /\
   Event.userId (Event.data Sample.A) = "u1"%string /\
   (EventManagement.filterCategory EventManagement.init = ""%string \/
    Event.category (Event.data Sample.A)
    = EventManagement.filterCategory EventManagement.init)).
Proof.
  assert (Hs : session Sample.env = Some "u1"%string) by reflexivity.
  split; [exact Hs |].
  destruct (owner_load_shows_own_events Sample.env Sample.catalog_AB
              EventManagement.init "u1" Hs) as (Hin & _ & Hord & _).
  split; [exact Hord | exact (Hin Sample.A)].
Defined.

Example owner_load_on_AB :
  EventManagement.events
    (EventManagement.loadEvents Sample.env (Serving Sample.catalog_AB)
       EventManagement.init)
  = [Sample.A].
Proof. vm_compute. reflexivity. Qed.

End LoadExamples.

(** ** Search *)

Section SearchMoreFacts.

Import Firestore.
Import EventManagement.




End SearchMoreFacts.

(** ** The browse page over time *)

Section BrowseInvariants.

Import Firestore.

(** X6. In every configuration the browse page of a signed-in user can
    reach, with loads and toggles settling in any order and with any answers
    of the store, the favorites index agrees with the mirror: an event of the
    mirror has its id in the index exactly when the user is in its
    [favorites], so that the heart shown on a card tells what the card's own
    data says. *)
Theorem index_agrees_with_mirror (u : string) (c : Home.Config) :
  Home.reachable (Some u) c ->
  forall e, In e (Home.events (Home.state c)) ->
    Home.isFavorite (Home.state c) (Event.id e) = Home.favorited_by u e.
Proof. intros H. exact (consistent_reachable u c H). Qed.

Lemma index_agrees_with_mirror_witness :
  Home.reachable Sample.u1 Sample.loaded /\
  In Sample.P1 (Home.events (Home.state Sample.loaded)) /\
  Home.isFavorite (Home.state Sample.loaded) (Event.id Sample.P1)
  = Home.favorited_by "u1" Sample.P1.
Proof.
  assert (Hin : In Sample.P1 (Home.events (Home.state Sample.loaded)))
    by (vm_compute; left; reflexivity).
  split; [exact loaded_reachable |]. split; [exact Hin |].
  exact (index_agrees_with_mirror "u1" Sample.loaded loaded_reachable Sample.P1 Hin).
Defined.

(** X7. For an anonymous visitor nothing is ever fetched or written: in
    every configuration the page can reach no call is in flight, [events] and
    the favorites index are empty, the spinner is off, nothing is logged, and
    the page shows its heading and the prompt to sign in and nothing else. *)
Theorem anonymous_page_stays_empty (c : Home.Config) :
  Home.reachable None c ->
  Home.pending c = [] /\
  Home.events (Home.state c) = [] /\
  Home.favorites (Home.state c) = [] /\
  Home.loading (Home.state c) = false /\
  Home.console (Home.state c) = [] /\
  Home.render None (Home.state c)
  = [View.Heading "Javni događaji";
     View.Prompt "Prijavite se kako biste vidjeli javne događaje"].
Proof.
  intros H.
  enough (Home.pending c = [] /\
          Home.events (Home.state c) = [] /\
          Home.favorites (Home.state c) = [] /\
          Home.loading (Home.state c) = false /\
          Home.console (Home.state c) = []) as (H1 & H2 & H3 & H4 & H5)
    by (repeat split; assumption).
  induction H as [| c c' _ IH Hstep].
  - repeat split.
  - destruct IH as (H1 & H2 & H3 & H4 & H5).
    inversion Hstep; subst; simpl in *.
    + repeat split; assumption.
    + discriminate.
    + destruct l1; discriminate.
    + discriminate.
    + destruct l1; discriminate.
Qed.

Lemma anonymous_page_stays_empty_witness :
  Home.reachable None
    {| Home.state := Home.setSelectedCategory "Music" Home.init; Home.pending := [] |} /\
  Home.events (Home.setSelectedCategory "Music" Home.init) = [].
Proof.
  assert (Hr : Home.reachable None
                 {| Home.state := Home.setSelectedCategory "Music" Home.init;
                    Home.pending := [] |}).
  { eapply Home.reachable_step; [apply Home.reachable_init |].
    apply (Home.step_select None {| Home.state := Home.init; Home.pending := [] |}
             "Music"%string).
    simpl. auto. }
  split; [exact Hr |].
  exact (proj1 (proj2 (anonymous_page_stays_empty _ Hr))).
Defined.

End BrowseInvariants.

(** ** Writes of the management page *)

Section WriteFacts.

Import Firestore.
Import EventManagement.

(** The ways [handleSubmit] can end. *)
Lemma handleSubmit_cases (env : Env) (now : Z) (fresh : string) (b : Backend)
    (st : State) :
  let st1 := setSuccess None (setError None st) in
  let r := handleSubmit env now fresh b st in
  (exists msg, session env = None /\ r = (console_error msg st1, b)) \/
  (exists u msg, session env = Some u /\ r = (submit_failed msg st1, b)) \/
  (exists u sel coll d,
      session env = Some u /\ selectedEvent st = Some sel /\
      b = Serving coll /\ coll !! Event.id sel = Some d /\
      r = (update_end sel (eventData env u now (form st)) (Ok tt) st1,
           Serving (<[Event.id sel := Event.stored d (eventData env u now (form st))]> coll))) \/
  (exists u coll,
      session env = Some u /\ selectedEvent st = None /\
      b = Serving coll /\ coll !! fresh = None /\
      r = (create_end (eventData env u now (form st)) (Ok fresh) st1,
           Serving (<[fresh := Event.stored (Event.of_payload (eventData env u now (form st)))
                                (eventData env u now (form st))]> coll))).
Proof.
  intros st1 r. subst r st1. unfold handleSubmit.
  destruct (session env) as [u|] eqn:Hs; simpl; [| left; eauto].
  right. destruct (selectedEvent st) as [sel|] eqn:Hsel.
  - unfold updateDoc. destruct b as [coll | msg]; [| left; eauto].
    destruct (coll !! Event.id sel) as [d|] eqn:Hd; [| left; eauto].
    destruct (writable _); [| left; eauto].
    right. left. exists u, sel, coll, d. auto.
  - unfold addDoc. destruct b as [coll | msg]; [| left; eauto].
    destruct (negb _); [left; eauto |].
    destruct (bool_decide (coll !! fresh = None)) eqn:Hf; [| left; eauto].
    apply bool_decide_eq_true in Hf.
    right. right. exists u, coll. auto.
Qed.

(** X8. A submit that does not succeed applies nothing: the mirror, the
    selection, the fields of the form and the store are as before. With a
    session, the error notice names the operation that failed: the update
    when an event was selected, the create otherwise. *)
Theorem submit_failure_applies_nothing (env : Env) (now : Z) (fresh : string)
    (b : Backend) (st : State) :
  let r := handleSubmit env now fresh b st in
  success (fst r) = None ->
  events (fst r) = events st /\
  selectedEvent (fst r) = selectedEvent st /\
  form (fst r) = form st /\
  snd r = b /\
  (session env <> None ->
   error (fst r)
   = Some (match selectedEvent st with
           | Some _ => "Ažuriranje nije uspjelo"
           | None => "Dodavanje nije uspjelo"
           end)%string).
Proof.
  intros r. subst r.
  destruct (handleSubmit_cases env now fresh b st)
    as [(msg & Hs & ->) | [(u & msg & Hs & ->) | [(u & sel & coll & d & Hs & Hsel & -> & Hd & ->)
                                                  | (u & coll & Hs & Hsel & -> & Hf & ->)]]];
    simpl; intros Hn; try discriminate.
  - repeat split. intros H. congruence.
  - repeat split.
Qed.

(** X9. After [handleSubmit], and after a confirmed [handleDelete], the page
    never holds a success notice and an error notice together, whatever was
    shown before; with a session, a submit always leaves one of the two. *)
Theorem write_notices_exclusive :
  (forall env now fresh b st,
      let st' := fst (handleSubmit env now fresh b st) in
      (success st' = None \/ error st' = None) /\
      (session env <> None -> is_Some (success st') \/ is_Some (error st'))) /\
  (forall b st,
      let st' := fst (handleDelete true b st) in
      (success st' = None \/ error st' = None) /\
      (is_Some (success st') \/ is_Some (error st'))).
Proof.
  split.
  - intros env now fresh b st st'. subst st'.
    destruct (handleSubmit_cases env now fresh b st)
      as [(msg & Hs & ->) | [(u & msg & Hs & ->) | [(u & sel & coll & d & Hs & Hsel & -> & Hd & ->)
                                                    | (u & coll & Hs & Hsel & -> & Hf & ->)]]];
      simpl; split; auto; intros Hne; try congruence; eauto.
  - intros b st st'. subst st'. unfold handleDelete. simpl.
    destruct (selectedEvent st); [destruct b |]; simpl; split; eauto.
Qed.

Lemma owner_load_events (env : Env) (u : string) (coll : gmap string Event.Data)
    (st : State) :
  session env = Some u ->
  events (loadEvents env (Serving coll) st) = run_query coll (compose u st).
Proof.
  intros Hs. unfold loadEvents, loadEvents_begin, request, answer.
  rewrite Hs. reflexivity.
Qed.




(** X11. What is created is there after a reload. After a successful create,
    [loadEvents] against the store as the create left it lists the new
    document under the id the store gave it, with the submitted fields and
    the [Date] as a [Timestamp], provided the category filter of the page is
    unset or is the category of the new event. *)
Theorem created_event_survives_reload (env : Env) (now : Z) (fresh : string)
    (b : Backend) (st : State) :
  selectedEvent st = None ->
  let r := handleSubmit env now fresh b st in
  success (fst r) = Some "Događaj dodan"%string ->
  (filterCategory st = ""%string \/
   filterCategory st = (if JsString.truthy (f_category (form st))
                        then f_category (form st) else "Other"%string)) ->
  exists u,
    session env = Some u /\
    let p := eventData env u now (form st) in
    In (Event.mk fresh (Event.stored (Event.of_payload p) p))
       (events (loadEvents env (snd r) (fst r))) /\
    (forall e, In e (events (loadEvents env (snd r) (fst r))) ->
               Event.id e = fresh ->
               e = Event.mk fresh (Event.stored (Event.of_payload p) p)).
Proof.
  intros Hsel r. subst r.
  destruct (handleSubmit_cases env now fresh b st)
    as [(msg & Hs & ->) | [(u & msg & Hs & ->) | [(u & sel0 & coll & d & Hs & Hsel0 & -> & Hd & ->)
                                                  | (u & coll & Hs & Hsel0 & -> & Hf & ->)]]];
    simpl fst; simpl snd; intros Hok Hcat; try discriminate; try congruence.
  exists u. split; [exact Hs |]. cbv zeta.
  set (p := eventData env u now (form st)).
  rewrite (owner_load_events env u _ _ Hs).
  split.
  - apply run_query_iff. simpl Event.id. simpl Event.data.
    split; [apply lookup_insert_eq |].
    apply satisfies_owner. split; [reflexivity |].
    destruct Hcat as [Hc | Hc]; [left; exact Hc | right; symmetry; exact Hc].
  - intros e He Hid. apply run_query_iff in He as [He _].
    rewrite Hid, lookup_insert_eq in He. injection He as He.
    destruct e as [i d']. simpl in *. congruence.
Qed.

(** X12. A confirmed delete that the store serves removes from the mirror
    exactly the entries with the id of the selected event, clears the
    selection, resets the form, and reports "Događaj obrisan" with no error;
    the document is gone from the store, so that no later [loadEvents]
    against that store lists the id again. *)
Theorem delete_removes_selected (env : Env) (coll : gmap string Event.Data)
    (st : State) (sel : Event.t) :
  selectedEvent st = Some sel ->
  let r := handleDelete true (Serving coll) st in
  (forall e, In e (events (fst r)) <-> In e (events st) /\ Event.id e <> Event.id sel) /\
  selectedEvent (fst r) = None /\
  form (fst r) = blank_form /\
  success (fst r) = Some "Događaj obrisan"%string /\
  error (fst r) = None /\
  snd r = Serving (delete (Event.id sel) coll) /\
  (forall e, In e (events (loadEvents env (snd r) (fst r))) ->
             Event.id e <> Event.id sel).
Proof.
  intros Hsel r. subst r. unfold handleDelete. simpl. rewrite Hsel. simpl.
  split; [| repeat split].
  - intros e. rewrite filter_In, negb_true_iff, String.eqb_neq. reflexivity.
  - intros e He Hid.
    unfold loadEvents, loadEvents_begin, request, answer in He.
    destruct (Auth.currentUid (session env)) as [u | msg]; simpl in He.
    + apply run_query_sound in He as [He _].
      rewrite Hid, lookup_delete_eq in He. discriminate.
    + apply filter_In in He as [_ He].
      apply negb_true_iff, String.eqb_neq in He. contradiction.
Qed.

(** X13. A delete that is not confirmed does nothing at all. A confirmed one
    that fails (the store rejects it, or no event is selected) loses nothing:
    the mirror, the selection, the form and the store are as before, and the
    notice is "Brisanje nije uspjelo" with no success. *)
Theorem delete_cancel_or_failure_loses_nothing :
  (forall b st, handleDelete false b st = (st, b)) /\
  (forall b st,
      (selectedEvent st = None \/ exists msg, b = Failing msg) ->
      let r := handleDelete true b st in
      events (fst r) = events st /\
      selectedEvent (fst r) = selectedEvent st /\
      form (fst r) = form st /\
      error (fst r) = Some "Brisanje nije uspjelo"%string /\
      success (fst r) = None /\
      snd r = b).
Proof.
  split; [reflexivity |].
  intros b st Hfail r. subst r. unfold handleDelete. simpl.
  destruct (selectedEvent st) as [sel|] eqn:Hsel.
  - destruct Hfail as [H | [msg ->]]; [discriminate |]. simpl.
    rewrite Hsel. repeat split.
  - simpl. rewrite Hsel. repeat split.
Qed.

End WriteFacts.

(** ** The form *)

Section FormFacts.

Import EventManagement.










Example trim_keeps_inner_space :
  JsString.trim (String "009" " Rock  Fest " ++ String "010" "")%string
  = "Rock  Fest"%string /\
  JsString.trim "   " = ""%string /\
  JsString.trim "" = ""%string.
Proof. repeat split. Qed.





End FormFacts.

(** ** The favorite toggle and the store *)

Section ToggleStoreFacts.

Import Firestore.

Lemma toggle_served (u : string) (coll : gmap string Event.Data) (st : Home.State)
    (eventId : string) (d : Event.Data) :
  coll !! eventId = Some d ->
  let t := {| Home.t_eventId := eventId; Home.t_userId := u;
              Home.t_isFavorite := Home.isFavorite st eventId |} in
  Home.toggleFavorite (Some u) (Serving coll) st eventId
  = (Home.toggleFavorite_end t (Ok tt) st,
     Serving (<[eventId := apply_write (Home.toggle_write t) d]> coll)).
Proof.
  intros Hd t. unfold Home.toggleFavorite. simpl. rewrite Hd.
  unfold Home.toggle_write. simpl.
  destruct (Home.isFavorite st eventId); reflexivity.
Qed.

Lemma patched_same_but_favorites (t : Home.Toggle) (d : Event.Data) :
  Spec.same_but_favorites d (apply_write (Home.toggle_write t) d).
Proof.
  unfold Home.toggle_write. destruct (Home.t_isFavorite t); repeat split.
Qed.

Lemma patched_member (t : Home.Toggle) (d : Event.Data) :
  Event.array_includes
    (stored_favorites (apply_write (Home.toggle_write t) d)) (Home.t_userId t)
  = negb (Home.t_isFavorite t).
Proof.
  unfold Home.toggle_write. destruct (Home.t_isFavorite t); simpl.
  - apply includes_without_same.
  - unfold stored_favorites at 1. simpl.
    destruct (Event.array_includes (stored_favorites d) (Home.t_userId t)) eqn:E.
    + exact E.
    + apply includes_push_same.
Qed.

Lemma patched_others (t : Home.Toggle) (d : Event.Data) (x : string) :
  x <> Home.t_userId t ->
  (In x (stored_favorites (apply_write (Home.toggle_write t) d)) <->
   In x (stored_favorites d)).
Proof.
  intros Hx. unfold Home.toggle_write. destruct (Home.t_isFavorite t); simpl.
  - unfold stored_favorites at 1. simpl. rewrite array_without_In. tauto.
  - unfold stored_favorites at 1. simpl.
    destruct (Event.array_includes _ _); [reflexivity |].
    rewrite in_app_iff. simpl. split; [intros [?|[?|[]]]; [assumption | congruence] | auto].
Qed.

Lemma patched_NoDup (t : Home.Toggle) (d : Event.Data) :
  NoDup (stored_favorites d) ->
  NoDup (stored_favorites (apply_write (Home.toggle_write t) d)).
Proof.
  intros Hnd. unfold Home.toggle_write. destruct (Home.t_isFavorite t); simpl.
  - unfold stored_favorites at 1. simpl. unfold Event.array_without.
    apply NoDup_ListNoDup, List.NoDup_filter. now apply NoDup_ListNoDup.
  - unfold stored_favorites at 1. simpl.
    destruct (Event.array_includes (stored_favorites d) (Home.t_userId t)) eqn:E;
      [exact Hnd |].
    apply NoDup_app. split; [exact Hnd | split; [| apply NoDup_singleton]].
    intros x Hx Hx'. apply list_elem_of_In in Hx, Hx'.
    destruct Hx' as [<- | []].
    apply array_includes_In in Hx. congruence.
Qed.

Lemma toggle_event_data (t : Home.Toggle) (e : Event.t) :
  Event.with_favorites [] (Event.data (Home.toggle_event t e))
  = Event.with_favorites [] (Event.data e).
Proof. unfold Home.toggle_event. destruct (String.eqb _ _); reflexivity. Qed.

(** X16. An acknowledged toggle is a patch of one field of one document. In
    the store only [favorites] of the toggled document changes: the user is
    in it afterwards exactly when the new local bit is set, the other users
    are those it held, and no user is there twice if none was; every other
    document is as before. In the mirror the ids and their order are kept and
    no field but [favorites] changes. A reload from the store as the toggle
    left it (same session, same category) that returns the event gives the
    index the bit the toggle gave it. *)
Theorem toggle_patches_only_favorites (u : string) (coll : gmap string Event.Data)
    (st : Home.State) (eventId : string) (d : Event.Data) :
  coll !! eventId = Some d ->
  let r := Home.toggleFavorite (Some u) (Serving coll) st eventId in
  Home.isFavorite (fst r) eventId = negb (Home.isFavorite st eventId) /\
  List.map Event.id (Home.events (fst r)) = List.map Event.id (Home.events st) /\
  List.map (fun e => Event.with_favorites [] (Event.data e)) (Home.events (fst r))
  = List.map (fun e => Event.with_favorites [] (Event.data e)) (Home.events st) /\
  (exists d',
      snd r = Serving (<[eventId := d']> coll) /\
      Spec.same_but_favorites d d' /\
      Event.array_includes (stored_favorites d') u = Home.isFavorite (fst r) eventId /\
      (forall x, x <> u -> (In x (stored_favorites d') <-> In x (stored_favorites d))) /\
      (NoDup (stored_favorites d) -> NoDup (stored_favorites d'))) /\
  (forall e,
      In e (Home.events (Home.loadEvents (Some u) (snd r) (fst r))) ->
      Event.id e = eventId ->
      Home.isFavorite (Home.loadEvents (Some u) (snd r) (fst r)) eventId
      = Home.isFavorite (fst r) eventId).
Proof.
  intros Hd r. subst r. rewrite (toggle_served u coll st eventId d Hd).
  set (t := {| Home.t_eventId := eventId; Home.t_userId := u;
               Home.t_isFavorite := Home.isFavorite st eventId |}).
  cbn [fst snd].
  assert (Hbit : Home.isFavorite (Home.toggleFavorite_end t (Ok tt) st) eventId
                 = negb (Home.isFavorite st eventId))
    by apply (toggle_ok_index t st).
  split; [exact Hbit |].
  split.
  { simpl. rewrite List.map_map. apply map_ext. intros e. apply toggle_event_id. }
  split.
  { simpl. rewrite List.map_map. apply map_ext. intros e. apply toggle_event_data. }
  split.
  { exists (apply_write (Home.toggle_write t) d).
    split; [reflexivity |]. split; [apply patched_same_but_favorites |].
    split; [rewrite Hbit; apply (patched_member t d) |].
    split; [intros x Hx; now apply (patched_others t d) | apply patched_NoDup]. }
  intros e He Hid. rewrite Hbit.
  set (coll' := <[eventId := apply_write (Home.toggle_write t) d]> coll) in *.
  change (Home.events (Home.loadEvents (Some u) (Serving coll')
                         (Home.toggleFavorite_end t (Ok tt) st)))
    with (run_query coll' (Home.compose st)) in He.
  unfold Home.isFavorite.
  change (Home.favorites (Home.loadEvents (Some u) (Serving coll')
                            (Home.toggleFavorite_end t (Ok tt) st)))
    with (List.map Event.id
            (List.filter (Home.favorited_by u) (run_query coll' (Home.compose st)))).
  rewrite <- Hid.
  rewrite (index_of_snapshot u _ e (run_query_NoDup _ _) He).
  apply run_query_sound in He as [He _].
  rewrite Hid in He. unfold coll' in He. rewrite lookup_insert_eq in He.
  injection He as He.
  unfold Home.favorited_by. rewrite <- He.
  pose proof (patched_member t d) as Hm.
  unfold stored_favorites in Hm.
  destruct (Event.favorites (apply_write (Home.toggle_write t) d)) as [l|] eqn:El.
  - rewrite Hid. exact Hm.
  - unfold Home.toggle_write in El. destruct (Home.t_isFavorite t); discriminate.
Qed.

End ToggleStoreFacts.

(** ** What the browse page shows *)

Section PageFacts.

Import Firestore.

Lemma filter_filter_same (A : Type) (f : A -> bool) (l : list A) :
  List.filter f (List.filter f l) = List.filter f l.
Proof.
  induction l as [|x l IH]; simpl; [reflexivity |].
  destruct (f x) eqn:E; simpl; [rewrite E, IH |]; auto.
Qed.

Lemma stored_with_favorites (l : list string) (d : Event.Data) :
  stored_favorites (Event.with_favorites l d) = l.
Proof. reflexivity. Qed.

Lemma with_favorites_twice (l l' : list string) (d : Event.Data) :
  Event.with_favorites l (Event.with_favorites l' d) = Event.with_favorites l d.
Proof. reflexivity. Qed.

(** The patch of a toggle applied twice is the patch applied once. *)
Lemma patch_twice (t : Home.Toggle) (d : Event.Data) :
  apply_write (Home.toggle_write t) (apply_write (Home.toggle_write t) d)
  = apply_write (Home.toggle_write t) d.
Proof.
  unfold Home.toggle_write. destruct (Home.t_isFavorite t); cbn [apply_write].
  - rewrite stored_with_favorites, with_favorites_twice.
    unfold Event.array_without. now rewrite filter_filter_same.
  - rewrite stored_with_favorites, with_favorites_twice.
    destruct (Event.array_includes (stored_favorites d) (Home.t_userId t)) eqn:E.
    + now rewrite E.
    + now rewrite includes_push_same.
Qed.

Lemma run_query_empty (q : Query) : run_query ∅ q = [].
Proof. unfold run_query, docs_of. rewrite map_to_list_empty. reflexivity. Qed.

(** X17. The browse page of a signed-in user after a load that the store
    served: the heading, the category buttons with the selected one active,
    no spinner, and then either the notice that the category has no public
    events, when nothing was returned, or one card per returned event, in the
    order returned, whose heart is filled exactly when the user is in the
    [favorites] of that event. *)
Theorem browse_page_after_load (u : string) (coll : gmap string Event.Data)
    (st : Home.State) :
  let st' := Home.loadEvents (Some u) (Serving coll) st in
  Home.render (Some u) st'
  = View.Heading "Javni događaji"
    :: List.map (fun '(value, label) =>
                   View.CategoryButton label (String.eqb (Home.selectedCategory st) value))
                Home.CATEGORIES
       ++ match run_query coll (Home.compose st) with
          | [] => [View.Info "Nema javnih događaja u ovoj kategoriji."]
          | docs => List.map (fun e => View.Card e (Home.favorited_by u e)) docs
          end.
Proof.
  intros st'. subst st'. unfold Home.render, Home.loadEvents. simpl.
  f_equal. do 5 f_equal.
  destruct (run_query coll (Home.compose st)) as [|e docs] eqn:E; [reflexivity |].
  cbn [List.length Nat.eqb Nat.ltb Nat.leb andb app].
  change (View.Card e (Home.favorited_by u e)
          :: List.map (fun e0 => View.Card e0 (Home.favorited_by u e0)) docs)
    with (List.map (fun e0 => View.Card e0 (Home.favorited_by u e0)) (e :: docs)).
  apply map_ext_in. intros x Hx. f_equal.
  rewrite <- E in *. apply index_of_snapshot; [apply run_query_NoDup | exact Hx].
Qed.

(** X18. On the browse page a first load that fails cannot be told from an
    empty category: with no events held, the page after a failed load is the
    page after a served load that returned nothing. *)
Theorem failed_first_load_looks_empty (s : Auth.Session) (msg : string)
    (st : Home.State) :
  Home.events st = [] ->
  Home.render s (Home.loadEvents s (Failing msg) st)
  = Home.render s (Home.loadEvents s (Serving ∅) st).
Proof.
  intros He. unfold Home.render, Home.loadEvents. simpl.
  rewrite run_query_empty. destruct s; simpl; rewrite ?He; reflexivity.
Qed.

Lemma failed_first_load_looks_empty_witness :
  Home.events Home.init = [] /\
  Home.render Sample.u1 (Home.loadEvents Sample.u1 (Failing "unavailable") Home.init)
  = Home.render Sample.u1 (Home.loadEvents Sample.u1 (Serving ∅) Home.init).
Proof.
  split; [reflexivity |].
  exact (failed_first_load_looks_empty Sample.u1 "unavailable" Home.init eq_refl).
Defined.

(** X19. Two toggles of the same event that overlap, the second begun before
    the first has settled, read the same bit. When that bit is off and both
    patches are acknowledged, the index lists the event twice and every entry
    of the event lists the user twice more, so its count grows by two, while
    the store, whose union adds a user once, gains the user once. When the bit
    is on, both remove, and the second removal changes nothing. *)
Theorem overlapping_toggles_count_twice (u eventId : string) (st : Home.State)
    (d : Event.Data) :
  let t := {| Home.t_eventId := eventId; Home.t_userId := u;
              Home.t_isFavorite := Home.isFavorite st eventId |} in
  let st2 := Home.toggleFavorite_end t (Ok tt) (Home.toggleFavorite_end t (Ok tt) st) in
  Home.toggleFavorite_begin (Some u) st eventId = Some (st, t) /\
  apply_write (Home.toggle_write t) (apply_write (Home.toggle_write t) d)
  = apply_write (Home.toggle_write t) d /\
  (Home.isFavorite st eventId = false ->
   Home.favorites st2 = Home.favorites st ++ [eventId; eventId] /\
   forall e, In e (Home.events st) -> Event.id e = eventId ->
     exists e2, In e2 (Home.events st2) /\ Event.id e2 = eventId /\
       Event.favorites_or_empty e2 = Event.favorites_or_empty e ++ [u; u]) /\
  (Home.isFavorite st eventId = true ->
   st2 = Home.toggleFavorite_end t (Ok tt) st).
Proof.
  intros t st2. subst st2. split; [reflexivity |]. split; [| split].
  - apply patch_twice.
  - intros Hb. unfold t. rewrite Hb. simpl. split.
    + now rewrite <- app_assoc.
    + intros e He Hid. eexists. split.
      * apply in_map, in_map. exact He.
      * unfold Home.toggle_event. simpl.
        pose proof (proj2 (String.eqb_eq _ _) Hid) as Hb'.
        rewrite Hb'. simpl. rewrite Hb'.
        split; [exact Hid |]. simpl.
        unfold Event.favorites_or_empty. simpl. now rewrite <- app_assoc.
  - intros Hb. unfold t. rewrite Hb.
    unfold Home.toggleFavorite_end, Home.setEvents, Home.setFavorites. simpl.
    f_equal.
    + rewrite List.map_map. apply map_ext. intros e.
      unfold Home.toggle_event. simpl.
      destruct (String.eqb (Event.id e) eventId) eqn:E; simpl; rewrite ?E;
        [| reflexivity].
      unfold Event.set_favorites. simpl. f_equal.
      rewrite with_favorites_twice. f_equal.
      unfold Event.array_without. apply filter_filter_same.
    + unfold Event.array_without. apply filter_filter_same.
Qed.

End PageFacts.

(** ** The properties above on the sample pages *)

Section MoreExamples.

Import Firestore.
Import EventManagement.



Example search_first_found :
  events (searchEvents Sample.env (Serving Sample.catalog_public)
            (setSearchTerm "  FIRST" Sample.managing))
  = [Sample.P1].
Proof. vm_compute. reflexivity. Qed.

Lemma submit_failure_applies_nothing_witness :
  success (fst (handleSubmit Sample.env 5000 "n1" (Failing "unavailable") Sample.editing))
  = None /\
  events (fst (handleSubmit Sample.env 5000 "n1" (Failing "unavailable") Sample.editing))
  = events Sample.editing /\
  error (fst (handleSubmit Sample.env 5000 "n1" (Failing "unavailable") Sample.editing))
  = Some "Ažuriranje nije uspjelo"%string.
Proof.
  assert (Hn : success (fst (handleSubmit Sample.env 5000 "n1" (Failing "unavailable")
                               Sample.editing)) = None) by reflexivity.
  split; [exact Hn |].
  destruct (submit_failure_applies_nothing Sample.env 5000 "n1"%string
              (Failing "unavailable") Sample.editing Hn)
    as (Hev & _ & _ & _ & Herr).
  split; [exact Hev |]. apply Herr. discriminate.
Defined.


Lemma created_event_survives_reload_witness :
  selectedEvent Sample.drafting = None /\
  success (fst (handleSubmit Sample.env 5000 "n1" (Serving ∅) Sample.drafting))
  = Some "Događaj dodan"%string /\
  exists e,
    In e (events (loadEvents Sample.env
                    (snd (handleSubmit Sample.env 5000 "n1" (Serving ∅) Sample.drafting))
                    (fst (handleSubmit Sample.env 5000 "n1" (Serving ∅) Sample.drafting)))) /\
    Event.id e = "n1"%string.
Proof.
  assert (Hsel : selectedEvent Sample.drafting = None) by reflexivity.
  assert (Hok : success (fst (handleSubmit Sample.env 5000 "n1" (Serving ∅)
                                Sample.drafting))
                = Some "Događaj dodan"%string) by (vm_compute; reflexivity).
  split; [exact Hsel |]. split; [exact Hok |].
  destruct (created_event_survives_reload Sample.env 5000 "n1"%string (Serving ∅)
              Sample.drafting Hsel Hok (or_introl eq_refl))
    as (u & _ & Hin & _).
  eexists. split; [exact Hin | reflexivity].
Defined.

Lemma delete_removes_selected_witness :
  selectedEvent Sample.editing = Some Sample.P1 /\
  events (fst (handleDelete true (Serving Sample.catalog_public) Sample.editing))
  = [Sample.P2] /\
  forall e,
    In e (events (fst (handleDelete true (Serving Sample.catalog_public) Sample.editing)))
    <-> In e (events Sample.editing) /\ Event.id e <> Event.id Sample.P1.
Proof.
  assert (Hsel : selectedEvent Sample.editing = Some Sample.P1) by reflexivity.
  split; [exact Hsel |]. split; [vm_compute; reflexivity |].
  exact (proj1 (delete_removes_selected Sample.env Sample.catalog_public
                  Sample.editing Sample.P1 Hsel)).
Defined.

Lemma toggle_patches_only_favorites_witness :
  Sample.catalog_public !! "a"%string = Some (Event.data Sample.P1) /\
  Home.isFavorite
    (fst (Home.toggleFavorite (Some "u1"%string) (Serving Sample.catalog_public)
            Sample.browsing "a")) "a"
  = negb (Home.isFavorite Sample.browsing "a").
Proof.
  assert (Hd : Sample.catalog_public !! "a"%string = Some (Event.data Sample.P1))
    by (vm_compute; reflexivity).
  split; [exact Hd |].
  exact (proj1 (toggle_patches_only_favorites "u1" Sample.catalog_public
                  Sample.browsing "a" (Event.data Sample.P1) Hd)).
Defined.

Example overlapping_toggles_on_a :
  let st2 := Home.toggleFavorite_end Sample.toggle_a (Ok tt)
               (Home.toggleFavorite_end Sample.toggle_a (Ok tt) Sample.browsing) in
  Home.favorites st2 = ["a"; "a"]%string /\
  List.map Event.favorites_or_empty (Home.events st2) = [["u1"; "u1"]; []]%string /\
  stored_favorites
    (apply_write (arrayUnion "u1")
       (apply_write (arrayUnion "u1") (Event.data Sample.P1)))
  = ["u1"%string].
Proof. vm_compute. repeat split. Qed.


Example select_fills_form :
  form (fst (formEffect Sample.env Sample.editing))
  = {| f_name := "First"; f_category := "Music"; f_description := "";
       f_datetime := "2025-03-01T11:00"; f_isPrivate := false |}.
Proof. vm_compute. reflexivity. Qed.

End MoreExamples.
